(** * Weather agent: tools, output schema and retry controller

    A shallow embedding of [weather.py]: the three tools registered on
    [weather_agent] ([get_aqi], [get_lat_lng], [get_weather]), the
    output schema [List[Structured_Output]] and the agent's retry
    budget.

    Conventions.
    - Values that travel between the planner, the tools and the HTTP
      collaborators are dynamically typed in the source; they are
      modelled by one type [json] ([JNull] is Python's [None]).
    - A finite Python [float] other than negative zero is modelled by
      the rational it denotes ([Q]); negative zero, the infinities and
      NaN are values of their own.
    - A tool is a small program over one effect, the HTTP GET; the
      network is whatever function answers the requests.  Console
      output ([print]) is not modelled. *)

From Stdlib Require Import ZArith QArith Qround Qabs Lqa String Ascii List Lia.
From stdpp Require Import base option gmap strings pretty.
Import ListNotations.

Local Open Scope Z_scope.
Local Open Scope string_scope.

(** ** Dynamically typed values *)

#[local] Set Warnings "-register-all".

(** The floats that are no rational: [-0.0], [inf], [-inf], [nan]
    (the decoder yields them for [-0.0], [1e400], [-Infinity], [NaN]). *)
Inductive special_float : Type := neg_zero | pos_inf | neg_inf | not_a_number.

Inductive json : Type :=
| JNull
| JBool (b : bool)
| JInt (z : Z)
| JFloat (q : Q)
| JStr (s : string)
| JArr (items : list json)
| JObj (fields : list (string * json))
| JSpecial (f : special_float).

(** A parsed JSON object is a [dict]; its entries are kept as an
    association list in which the first entry for a key is the one the
    dict holds. *)
Fixpoint assoc (k : string) (fields : list (string * json)) : option json :=
  match fields with
  | [] => None
  | (k', v) :: rest => if String.eqb k k' then Some v else assoc k rest
  end.

Definition has_key (k : string) (fields : list (string * json)) : bool :=
  match assoc k fields with Some _ => true | None => false end.

(** ** Exceptions and the tool monad *)

Inductive exn : Type :=
| ModelRetry (message : string)   (* pydantic_ai.ModelRetry *)
| RequestException                (* requests.RequestException and subclasses *)
| HTTPError                       (* httpx: transport failure or error status *)
| JSONDecodeError                 (* httpx Response.json() on a non-JSON body *)
| KeyError (key : json)
| IndexError
| TypeError
| AttributeError
| ValueError
| OverflowError.

(** What the two HTTP clients are asked for. *)
Inductive request : Type :=
| WaqiFeed (lat lon : Q) (token : option string)
    (* requests.get(f"http://api.waqi.info/feed/geo:{lat};{lon}/?token={token}", timeout=10) *)
| GeocodeSearch (q api_key : string)
    (* client.get('https://geocode.maps.co/search', params={'q', 'api_key'}) *)
| TomorrowRealtime (apikey : string) (lat lng : Q).
    (* client.get('https://api.tomorrow.io/v4/weather/realtime',
                  params={'apikey', 'location': f'{lat},{lng}', 'units': 'metric'}) *)

(** A response as far as the tools look at it: whether
    [raise_for_status()] raises, and what [json()] decodes ([None] when
    the body is not JSON and the client's decoding error is raised).
    The other exceptions a decoder can let through on a body it does
    not decode (an integer literal beyond the digit limit, nesting
    beyond the recursion limit, bytes that are no text) have no value
    here. *)
Record response : Type := Response {
  error_status : bool;
  body : option json
}.

Inductive http_outcome : Type :=
| Unreachable                 (* the GET itself raises: timeout, connection error *)
| Answered (r : response).

Inductive tool (A : Type) : Type :=
| Return (a : A)
| Raise (e : exn)
| HttpGet (rq : request) (k : http_outcome -> tool A).

Arguments Return {A} a.
Arguments Raise {A} e.
Arguments HttpGet {A} rq k.

Fixpoint bind {A B : Type} (p : tool A) (f : A -> tool B) : tool B :=
  match p with
  | Return a => f a
  | Raise e => Raise e
  | HttpGet rq k => HttpGet rq (fun o => bind (k o) f)
  end.

#[export] Instance tool_ret : MRet tool := @Return.
#[export] Instance tool_bind : MBind tool := fun A B f p => bind p f.

(** [try: p except h]: an exception [e] of [p] with [h e = Some q] is
    handled by [q], any other one propagates. *)
Fixpoint try_except {A : Type} (p : tool A) (h : exn -> option (tool A)) : tool A :=
  match p with
  | Return a => Return a
  | Raise e => match h e with Some q => q | None => Raise e end
  | HttpGet rq k => HttpGet rq (fun o => try_except (k o) h)
  end.

(** The result of a tool call once the network has answered. *)
Inductive result (A : Type) : Type :=
| Returned (a : A)
| Raised (e : exn).

Arguments Returned {A} a.
Arguments Raised {A} e.

Definition network : Type := request -> http_outcome.

Fixpoint run {A : Type} (net : network) (p : tool A) : result A :=
  match p with
  | Return a => Returned a
  | Raise e => Raised e
  | HttpGet rq k => run net (k (net rq))
  end.

(** Requests issued by a tool call, in order. *)
Fixpoint requests_of {A : Type} (net : network) (p : tool A) : list request :=
  match p with
  | Return _ | Raise _ => []
  | HttpGet rq k => rq :: requests_of net (k (net rq))
  end.

(** ** The HTTP clients *)

(** [requests.get(url, timeout=10)] *)
Definition requests_get (rq : request) : tool response :=
  HttpGet rq (fun o =>
    match o with
    | Unreachable => Raise RequestException
    | Answered r => Return r
    end).

(** [response.raise_for_status()] of [requests]: [HTTPError] is a
    [RequestException]. *)
Definition requests_raise_for_status (r : response) : tool unit :=
  if error_status r then Raise RequestException else Return tt.

(** [response.json()] of [requests]: its [JSONDecodeError] is a
    [RequestException]. *)
Definition requests_json (r : response) : tool json :=
  match body r with
  | Some v => Return v
  | None => Raise RequestException
  end.

(** [await ctx.deps.client.get(url, params=params)] *)
Definition client_get (rq : request) : tool response :=
  HttpGet rq (fun o =>
    match o with
    | Unreachable => Raise HTTPError
    | Answered r => Return r
    end).

Definition raise_for_status (r : response) : tool unit :=
  if error_status r then Raise HTTPError else Return tt.

Definition response_json (r : response) : tool json :=
  match body r with
  | Some v => Return v
  | None => Raise JSONDecodeError
  end.

(** ** Python operations on dynamically typed values *)

(** Truth value, as tested by [if data:]. *)
Definition truthy (v : json) : bool :=
  match v with
  | JNull => false
  | JBool b => b
  | JInt z => negb (Z.eqb z 0)
  | JFloat q => negb (Qeq_bool q 0)
  | JStr s => negb (String.eqb s "")
  | JArr items => match items with [] => false | _ => true end
  | JObj fields => match fields with [] => false | _ => true end
  | JSpecial f => match f with neg_zero => false | _ => true end
  end.

(** [v[key]] with a string key. *)
Definition getitem_str (v : json) (key : string) : tool json :=
  match v with
  | JObj fields =>
      match assoc key fields with
      | Some x => Return x
      | None => Raise (KeyError (JStr key))
      end
  | _ => Raise TypeError
  end.

(** [v[0]] *)
Definition getitem_0 (v : json) : tool json :=
  match v with
  | JArr (x :: _) => Return x
  | JArr [] => Raise IndexError
  | JStr (String c _) => Return (JStr (String c ""))
  | JStr "" => Raise IndexError
  | JObj _ => Raise (KeyError (JInt 0))
  | _ => Raise TypeError
  end.

(** [v.get(key)]: only a dict has the method. *)
Definition dict_get (v : json) (key : string) : tool json :=
  match v with
  | JObj fields => Return (default JNull (assoc key fields))
  | _ => Raise AttributeError
  end.

Definition is_str (s : string) (v : json) : bool :=
  match v with JStr s' => String.eqb s s' | _ => false end.

Definition is_substring (s1 s2 : string) : bool :=
  match String.index 0 s1 s2 with Some _ => true | None => false end.

(** [key in v] with a string key: dict membership, list membership,
    substring test; other values are not iterable. *)
Definition contains_str (key : string) (v : json) : tool bool :=
  match v with
  | JObj fields => Return (has_key key fields)
  | JArr items => Return (existsb (is_str key) items)
  | JStr s => Return (is_substring key s)
  | _ => Raise TypeError
  end.

(** ** Numbers and their formatting *)

(** Nearest integer, ties to the even one. *)
Definition round_half_even (q : Q) : Z :=
  let n := Qfloor q in
  match Qcompare (q - inject_Z n) (1 # 2) with
  | Lt => n
  | Gt => n + 1
  | Eq => if Z.even n then n else n + 1
  end.

(** [float(z)]: the nearest binary64 value; [None] is the
    [OverflowError] of an integer too large for a float. *)
Definition float_of_int (z : Z) : option Q :=
  let a := Z.abs z in
  let e := Z.log2 a - 52 in
  if Z.leb e 0 then Some (inject_Z z)
  else
    let m := round_half_even (a # Z.to_pos (2 ^ e)) in
    let v := m * 2 ^ e in
    if Z.ltb v (2 ^ 1024) then Some (inject_Z (Z.sgn z * v)) else None.

(** [f'{x:0.0f}'] on a finite float other than negative zero: fixed
    notation, no digit after the point, the sign kept when the rounded
    magnitude is zero. *)
Definition format_0f (q : Q) : string :=
  (if Qle_bool 0 q then "" else "-") ++ pretty (Z.to_N (round_half_even (Qabs q))).

(** [f'{x:0.0f}'] on the other floats. *)
Definition format_special_0f (f : special_float) : string :=
  match f with
  | neg_zero => "-0"
  | pos_inf => "inf"
  | neg_inf => "-inf"
  | not_a_number => "nan"
  end.

(** [f'{v:0.0f}'] on any value: [int] and [bool] are converted to
    float, [str] rejects the format code, the other types reject any
    format string. *)
Definition format_value_0f (v : json) : tool string :=
  match v with
  | JFloat q => Return (format_0f q)
  | JSpecial f => Return (format_special_0f f)
  | JInt z =>
      match float_of_int z with
      | Some q => Return (format_0f q)
      | None => Raise OverflowError
      end
  | JBool b => Return (if b then "1" else "0")
  | JStr _ => Raise ValueError
  | _ => Raise TypeError
  end.

(** [t] is [q] in fixed notation without decimals: the sign of [q] and
    the digits of an integer nearest to its magnitude, the even one
    when two are equally near. *)
Definition rounded_to (q : Q) (t : string) : Prop :=
  exists n : Z,
    0 <= n /\
    t = (if Qle_bool 0 q then "" else "-") ++ pretty (Z.to_N n) /\
    (Qabs (inject_Z n - Qabs q) <= 1 # 2)%Q /\
    ((Qabs q - inject_Z (Qfloor (Qabs q)) == 1 # 2)%Q -> Z.even n = true).

(** [q] is the float nearest to the integer [z]: [z] itself below
    2^53, otherwise a multiple [m * 2^e] of the spacing of floats at
    that magnitude, at most half a spacing away, with [m] even when [z]
    lies half way, and within the range of floats. *)
Definition nearest_float (z : Z) (q : Q) : Prop :=
  if Z.ltb (Z.abs z) (2 ^ 53) then q = inject_Z z
  else
    let e := Z.log2 (Z.abs z) - 52 in
    exists m : Z,
      0 <= m /\
      q = inject_Z (Z.sgn z * (m * 2 ^ e)) /\
      2 * Z.abs (m * 2 ^ e - Z.abs z) <= 2 ^ e /\
      (2 * Z.abs (m * 2 ^ e - Z.abs z) = 2 ^ e -> Z.even m = true) /\
      m * 2 ^ e < 2 ^ 1024.

(** The values the format code [f] takes: floats, booleans, and the
    integers that round to a float (those below the midpoint between
    the largest float and 2^1024). *)
Definition numeric (v : json) : Prop :=
  match v with
  | JFloat _ | JBool _ | JSpecial _ => True
  | JInt z => Z.abs z < 2 ^ 1024 - 2 ^ 970
  | _ => False
  end.

(** ** Dependencies *)

(** [client] is the handle through which [client_get] goes; the
    credentials are optional. *)
Record Deps : Type := {
  weather_api_key : option string;
  geo_api_key : option string;
  aqi_api_key : option string
}.

(** ** The tools *)

Definition get_aqi (ctx : Deps) (lat lon : Q) : tool json :=
  try_except
    (response ← requests_get (WaqiFeed lat lon (aqi_api_key ctx));
     requests_raise_for_status response;;
     data ← requests_json response;
     status ← dict_get data "status";
     has_data ← (if is_str "ok" status then contains_str "data" data else Return false);
     has_aqi ← (if (has_data : bool)
                then d ← getitem_str data "data"; contains_str "aqi" d
                else Return false);
     if (has_aqi : bool) then
       d ← getitem_str data "data";
       getitem_str d "aqi"
     else Return JNull)
    (λ e, match e with
          | RequestException => Some (Return JNull)
          | _ => None
          end).

Definition london : json := JObj [("lat", JFloat (511 # 10)); ("lng", JFloat (- 1 # 10))].

Definition get_lat_lng (ctx : Deps) (location_description : string) : tool json :=
  match geo_api_key ctx with
  | None => Return london
  | Some key =>
      r ← client_get (GeocodeSearch location_description key);
      raise_for_status r;;
      data ← response_json r;
      if truthy data then
        first ← getitem_0 data;
        lat ← getitem_str first "lat";
        first' ← getitem_0 data;
        lon ← getitem_str first' "lon";
        Return (JObj [("lat", lat); ("lng", lon)])
      else Raise (ModelRetry "Could not find the location")
  end.

(** https://docs.tomorrow.io/reference/data-layers-weather-codes *)
Definition code_lookup : gmap Z string :=
  list_to_map
    [ (1000, "Clear, Sunny"); (1100, "Mostly Clear"); (1101, "Partly Cloudy");
      (1102, "Mostly Cloudy"); (1001, "Cloudy"); (2000, "Fog");
      (2100, "Light Fog"); (4000, "Drizzle"); (4001, "Rain");
      (4200, "Light Rain"); (4201, "Heavy Rain"); (5000, "Snow");
      (5001, "Flurries"); (5100, "Light Snow"); (5101, "Heavy Snow");
      (6000, "Freezing Drizzle"); (6001, "Freezing Rain");
      (6200, "Light Freezing Rain"); (6201, "Heavy Freezing Rain");
      (7000, "Ice Pellets"); (7101, "Heavy Ice Pellets");
      (7102, "Light Ice Pellets"); (8000, "Thunderstorm") ].

(** The integer a value is equal to as a dict key ([1000.0 == 1000],
    [True == 1]); [None] for a hashable value that equals no integer.
    Lists and dicts are unhashable. *)
Definition int_key (v : json) : tool (option Z) :=
  match v with
  | JInt z => Return (Some z)
  | JFloat q => Return (if Qeq_bool q (inject_Z (Qfloor q)) then Some (Qfloor q) else None)
  | JBool b => Return (Some (if b then 1 else 0))
  | JSpecial f => Return (match f with neg_zero => Some 0 | _ => None end)
  | JNull | JStr _ => Return None
  | JArr _ | JObj _ => Raise TypeError
  end.

(** [code_lookup.get(v, 'Unknown')] *)
Definition code_lookup_get (v : json) : tool string :=
  k ← int_key v;
  Return (default "Unknown" (k ≫= (code_lookup !!.))).

Definition sunny : json := JObj [("temperature", JStr "21 °C"); ("description", JStr "Sunny")].

Definition get_weather (ctx : Deps) (lat lng : Q) : tool json :=
  match weather_api_key ctx with
  | None => Return sunny
  | Some key =>
      r ← client_get (TomorrowRealtime key lat lng);
      raise_for_status r;;
      data ← response_json r;
      d ← getitem_str data "data";
      values ← getitem_str d "values";
      apparent ← getitem_str values "temperatureApparent";
      temperature ← format_value_0f apparent;
      code ← getitem_str values "weatherCode";
      description ← code_lookup_get code;
      Return (JObj [("temperature", JStr (temperature ++ "°C"));
                    ("description", JStr description)])
  end.

(** The upstream call of [get_weather] succeeded and its body holds
    [values] at [data['data']['values']]. *)
Definition realtime_values (net : network) (key : string) (lat lng : Q)
    (values : list (string * json)) : Prop :=
  exists top d,
    net (TomorrowRealtime key lat lng)
      = Answered {| error_status := false; body := Some (JObj top) |} /\
    assoc "data" top = Some (JObj d) /\
    assoc "values" d = Some (JObj values).

(** ** The output schema *)

(** [class Structured_Output(BaseModel)] *)
Record Structured_Output : Type := {
  location : string;
  temperature : string;
  aqi : Z;
  description : string
}.

(** Validation of a candidate against [List[Structured_Output]] is
    pydantic's, driven by the declared field types: in its default
    (lax) mode a [str] field takes a string as it is, an [int] field
    takes an integer, a boolean, a float without fractional part that
    fits 64 bits, or a string holding a decimal numeral (surrounding
    whitespace, a sign, single underscores between digits and a
    fractional part of zeros are allowed), all four fields are required
    and keys that name no field are ignored.  Every mismatch is
    reported with the place it was found at. *)

Inductive problem : Type :=
| list_type | model_type | missing | string_type | int_type | int_parsing | int_from_float
| int_parsing_size | finite_number.

Inductive place : Type :=
| at_index (i : nat)
| at_field (name : string).

Definition diagnostic : Type := list place * problem.

Inductive checked (A : Type) : Type :=
| Valid (a : A)
| Invalid (errors : list diagnostic).

Arguments Valid {A} a.
Arguments Invalid {A} errors.

(** Applies a checked function to a checked argument, keeping the
    diagnostics of both. *)
Definition ap {A B : Type} (f : checked (A -> B)) (x : checked A) : checked B :=
  match f, x with
  | Valid g, Valid a => Valid (g a)
  | Valid _, Invalid e => Invalid e
  | Invalid e, Valid _ => Invalid e
  | Invalid e1, Invalid e2 => Invalid (e1 ++ e2)%list
  end.

Definition under {A : Type} (p : place) (c : checked A) : checked A :=
  match c with
  | Valid a => Valid a
  | Invalid errors => Invalid (map (λ d, (p :: fst d, snd d)) errors)
  end.

Definition digit_of (c : ascii) : option Z :=
  let n := Z.of_nat (nat_of_ascii c) in
  if Z.leb 48 n && Z.leb n 57 then Some (n - 48) else None.

(** Digits, with single underscores between them. *)
Fixpoint parse_grouped (acc : Z) (after_digit : bool) (s : string) : option Z :=
  match s with
  | EmptyString => if after_digit then Some acc else None
  | String c rest =>
      match digit_of c with
      | Some d => parse_grouped (10 * acc + d) true rest
      | None =>
          if Ascii.eqb c "_" && after_digit then parse_grouped acc false rest else None
      end
  end.

Fixpoint trim_start (s : string) : string :=
  match s with
  | EmptyString => EmptyString
  | String c rest => if Ascii.is_space c then trim_start rest else s
  end.

Fixpoint trim_end (s : string) : string :=
  match s with
  | EmptyString => EmptyString
  | String c rest =>
      match trim_end rest with
      | EmptyString => if Ascii.is_space c then EmptyString else String c EmptyString
      | kept => String c kept
      end
  end.

(** The part before the first ['.'], and the part after it if there
    is one. *)
Fixpoint split_dot (s : string) : string * option string :=
  match s with
  | EmptyString => (EmptyString, None)
  | String c rest =>
      if Ascii.eqb c "."
      then (EmptyString, Some rest)
      else let (before, after) := split_dot rest in (String c before, after)
  end.

Fixpoint all_zeros (s : string) : bool :=
  match s with
  | EmptyString => true
  | String c rest => Ascii.eqb c "0" && all_zeros rest
  end.

(** The integer a string is read as: surrounding whitespace dropped,
    an optional sign, grouped digits, an optional fractional part of
    zeros. *)
Definition parse_int (s : string) : option Z :=
  let t := trim_end (trim_start s) in
  let signed :=
    match t with
    | String "-" rest => (true, rest)
    | String "+" rest => (false, rest)
    | _ => (false, t)
    end in
  let (whole, fraction) := split_dot (snd signed) in
  if all_zeros (default EmptyString fraction)
  then (if fst signed then Z.opp else id) <$> parse_grouped 0 false whole
  else None.

Definition check_str (v : json) : checked string :=
  match v with
  | JStr s => Valid s
  | _ => Invalid [([], string_type)]
  end.

Definition check_int (v : json) : checked Z :=
  match v with
  | JInt z => Valid z
  | JBool b => Valid (if b then 1 else 0)
  | JFloat q =>
      if Qeq_bool q (inject_Z (Qfloor q))
      then (if Z.ltb (Z.abs (Qfloor q)) (2 ^ 63) then Valid (Qfloor q)
            else Invalid [([], int_parsing_size)])
      else Invalid [([], int_from_float)]
  | JSpecial f =>
      match f with
      | neg_zero => Valid 0
      | _ => Invalid [([], finite_number)]
      end
  | JStr s =>
      match parse_int s with
      | Some z => Valid z
      | None => Invalid [([], int_parsing)]
      end
  | _ => Invalid [([], int_type)]
  end.

Definition required {A : Type} (name : string) (check : json -> checked A)
    (fields : list (string * json)) : checked A :=
  match assoc name fields with
  | Some v => under (at_field name) (check v)
  | None => Invalid [([at_field name], missing)]
  end.

Definition validate_item (v : json) : checked Structured_Output :=
  match v with
  | JObj fields =>
      ap (ap (ap (ap (Valid Build_Structured_Output)
                     (required "location" check_str fields))
                 (required "temperature" check_str fields))
             (required "aqi" check_int fields))
         (required "description" check_str fields)
  | _ => Invalid [([], model_type)]
  end.

Fixpoint validate_items (i : nat) (items : list json) : checked (list Structured_Output) :=
  match items with
  | [] => Valid []
  | v :: rest => ap (ap (Valid cons) (under (at_index i) (validate_item v)))
                    (validate_items (S i) rest)
  end.

(** [output_type=List[Structured_Output]] *)
Definition validate_output (candidate : json) : checked (list Structured_Output) :=
  match candidate with
  | JArr items => validate_items 0 items
  | _ => Invalid [([], list_type)]
  end.


(** The value a validated item was read from, up to coercion. *)
Definition item_json (o : Structured_Output) : json :=
  JObj [("location", JStr (location o)); ("temperature", JStr (temperature o));
        ("aqi", JInt (aqi o)); ("description", JStr (description o))].

(** What a candidate field must hold for an item [o] to come out of it. *)
Definition str_field_is (name : string) (s : string) (fields : list (string * json)) : Prop :=
  assoc name fields = Some (JStr s).

Definition int_field_is (name : string) (z : Z) (fields : list (string * json)) : Prop :=
  exists v, assoc name fields = Some v /\ check_int v = Valid z.

Definition item_reads_as (v : json) (o : Structured_Output) : Prop :=
  exists fields,
    v = JObj fields /\
    str_field_is "location" (location o) fields /\
    str_field_is "temperature" (temperature o) fields /\
    int_field_is "aqi" (aqi o) fields /\
    str_field_is "description" (description o) fields.











(** ** The retry controller *)

(** [Agent(..., retries=2, ...)] *)
Definition retries : nat := 2.

(** Modelled from the spec: the loop behind [weather_agent.run] is the
    agent framework's and is not part of [weather.py]; the types below
    are the specification's ToolCall, ToolResult, PlannerResponse,
    ConversationState and RetryState, with the three registered tools
    as the registry. *)
Inductive ToolCall : Type :=
| call_get_aqi (lat lon : Q)
| call_get_lat_lng (location_description : string)
| call_get_weather (lat lng : Q)
| call_unknown (name : string).

Inductive FailureKind : Type := Retryable | Fatal.

Inductive ToolResult : Type :=
| Success (value : json)
| Failure (kind : FailureKind) (message : string).

Inductive PlannerResponse : Type :=
| RequestedCalls (calls : list ToolCall)
| CandidateAnswer (payload : json).

Inductive round : Type :=
| Dispatched (results : list (ToolCall * ToolResult))
| Rejected (payload : json) (errors : list diagnostic).

Definition ConversationState : Type := list round.

Inductive abort_cause : Type :=
| fatal_failure (message : string)
| budget_exhausted.

Inductive phase : Type :=
| Planning
| Dispatching (calls : list ToolCall)
| Validating (payload : json)
| Done (output : list Structured_Output)
| Aborted (cause : abort_cause).

Record RetryState : Type := {
  round_count : nat;
  max_rounds : nat
}.

Record run_state : Type := {
  at_phase : phase;
  retry : RetryState;
  conversation : ConversationState
}.

Definition exn_name (e : exn) : string :=
  match e with
  | ModelRetry m => m
  | RequestException => "RequestException"
  | HTTPError => "HTTPError"
  | JSONDecodeError => "JSONDecodeError"
  | KeyError _ => "KeyError"
  | IndexError => "IndexError"
  | TypeError => "TypeError"
  | AttributeError => "AttributeError"
  | ValueError => "ValueError"
  | OverflowError => "OverflowError"
  end.

(** Modelled from the spec: the ToolResult of a finished tool call,
    which the framework computes outside [weather.py].  A raised
    [ModelRetry] is the Retryable failure and carries its text as
    guidance; any other exception is Fatal. *)
Definition classify (r : result json) : ToolResult :=
  match r with
  | Returned v => Success v
  | Raised (ModelRetry m) => Failure Retryable m
  | Raised e => Failure Fatal (exn_name e)
  end.

Definition is_retryable (r : ToolResult) : bool :=
  match r with Failure Retryable _ => true | _ => false end.

Fixpoint first_fatal (results : list (ToolCall * ToolResult)) : option string :=
  match results with
  | [] => None
  | (_, Failure Fatal m) :: _ => Some m
  | _ :: rest => first_fatal rest
  end.

Definition start (max : nat) : run_state :=
  {| at_phase := Planning;
     retry := {| round_count := 0; max_rounds := max |};
     conversation := [] |}.

(** Modelled from the spec: the retry accounting of the Retry
    Controller, absent from [weather.py]: a retryable failure
    increments the count; below the bound the run re-plans, otherwise
    it is aborted. *)
Definition retry_or_abort (st : run_state) (guided : ConversationState) : run_state :=
  let n := S (round_count (retry st)) in
  let counted := {| round_count := n; max_rounds := max_rounds (retry st) |} in
  if Nat.ltb n (max_rounds (retry st))
  then {| at_phase := Planning; retry := counted; conversation := guided |}
  else {| at_phase := Aborted budget_exhausted; retry := counted;
          conversation := conversation st |}.

Section Controller.

Variable plan : ConversationState -> PlannerResponse.
Variable net : network.
Variable deps : Deps.

(** Modelled from the spec: [invoke] of the Tool Registry, absent
    from [weather.py]; the registered implementations are the three
    tools above, an unknown name is a fatal dispatch error. *)
Definition invoke (c : ToolCall) : ToolResult :=
  match c with
  | call_get_aqi lat lon => classify (run net (get_aqi deps lat lon))
  | call_get_lat_lng l => classify (run net (get_lat_lng deps l))
  | call_get_weather lat lng => classify (run net (get_weather deps lat lng))
  | call_unknown _ => Failure Fatal "UnknownTool"
  end.

Definition dispatch (calls : list ToolCall) : list (ToolCall * ToolResult) :=
  map (λ c, (c, invoke c)) calls.

(** Modelled from the spec: one transition of the Retry Controller
    state machine (Planning, Dispatching, Validating, Done, Aborted),
    absent from [weather.py]. *)
Definition step (st : run_state) : run_state :=
  match at_phase st with
  | Planning =>
      {| at_phase := match plan (conversation st) with
                     | RequestedCalls calls => Dispatching calls
                     | CandidateAnswer payload => Validating payload
                     end;
         retry := retry st;
         conversation := conversation st |}
  | Dispatching calls =>
      let results := dispatch calls in
      match first_fatal results with
      | Some m =>
          {| at_phase := Aborted (fatal_failure m); retry := retry st;
             conversation := conversation st |}
      | None =>
          let appended := (conversation st ++ [Dispatched results])%list in
          if existsb (λ cr, is_retryable (snd cr)) results
          then retry_or_abort
                 {| at_phase := at_phase st; retry := retry st; conversation := appended |}
                 appended
          else {| at_phase := Planning; retry := retry st; conversation := appended |}
      end
  | Validating payload =>
      match validate_output payload with
      | Valid output =>
          {| at_phase := Done output; retry := retry st;
             conversation := conversation st |}
      | Invalid errors =>
          retry_or_abort st (conversation st ++ [Rejected payload errors])%list
      end
  | Done _ | Aborted _ => st
  end.

Definition run_for (n : nat) (st : run_state) : run_state := Nat.iter n step st.

(** The states a run started with the configured budget goes through. *)
Inductive reachable : run_state -> Prop :=
| reach_start : reachable (start retries)
| reach_step st : reachable st -> reachable (step st).

End Controller.

(** Modelled from the spec: the transitions that count against the
    budget, in the words of the Retry Controller: a dispatch round
    without fatal result in which some tool failed retryably, and a
    rejected candidate. *)
Definition retryable_failure (net : network) (deps : Deps) (st : run_state) : bool :=
  match at_phase st with
  | Dispatching calls =>
      match first_fatal (dispatch net deps calls) with
      | Some _ => false
      | None => existsb (λ cr, is_retryable (snd cr)) (dispatch net deps calls)
      end
  | Validating payload =>
      match validate_output payload with
      | Valid _ => false
      | Invalid _ => true
      end
  | _ => false
  end.

(** The retryable failures, of either kind, among the first [n]
    transitions of a run. *)
Fixpoint failures (plan : ConversationState -> PlannerResponse) (net : network)
    (deps : Deps) (n : nat) : nat :=
  match n with
  | O => O
  | S n' =>
      (failures plan net deps n' +
       if retryable_failure net deps (run_for plan net deps n' (start retries))
       then 1 else 0)%nat
  end.

(** ** Sample runs *)

Definition no_credentials : Deps :=
  {| weather_api_key := None; geo_api_key := None; aqi_api_key := None |}.

Definition all_credentials : Deps :=
  {| weather_api_key := Some "w-key"; geo_api_key := Some "g-key"; aqi_api_key := Some "a-key" |}.

(** A network on which every request is answered with the same body. *)
Definition answering (v : json) : network :=
  λ _, Answered {| error_status := false; body := Some v |}.

Definition offline : network := λ _, Unreachable.

Definition amsterdam (a : json) : json :=
  JObj [("location", JStr "Amsterdam"); ("temperature", JStr "21 °C");
        ("aqi", a); ("description", JStr "Sunny")].

(** A planner that asks for an unknown place and then answers without
    an [aqi] it can use. *)
Definition lost_planner (c : ConversationState) : PlannerResponse :=
  match c with
  | [] => RequestedCalls [call_get_lat_lng "Nowhere"]
  | _ => CandidateAnswer (JArr [amsterdam JNull])
  end.

(** A planner that keeps asking for the unknown place. *)
Definition stuck_planner (c : ConversationState) : PlannerResponse :=
  RequestedCalls [call_get_lat_lng "Nowhere"].

(** A planner that keeps answering without a usable [aqi]. *)
Definition null_planner (c : ConversationState) : PlannerResponse :=
  CandidateAnswer (JArr [amsterdam JNull]).

(** A planner whose second answer is valid. *)
Definition recovering_planner (c : ConversationState) : PlannerResponse :=
  match c with
  | [] => CandidateAnswer (JArr [amsterdam JNull])
  | _ => CandidateAnswer (JArr [amsterdam (JInt 42)])
  end.

(** A planner that looks the place up, then the readings, then answers. *)
Definition steady_planner (c : ConversationState) : PlannerResponse :=
  match c with
  | [] => RequestedCalls [call_get_lat_lng "Amsterdam"]
  | [_] => RequestedCalls [call_get_aqi (511 # 10) (- 1 # 10);
                           call_get_weather (511 # 10) (- 1 # 10)]
  | _ => CandidateAnswer (JArr [amsterdam (JInt 42)])
  end.

(** ** Programs without requests *)

(** A program that ends without asking the network for anything. *)
Definition request_free {A : Type} (p : tool A) : Prop :=
  match p with
  | HttpGet _ _ => False
  | _ => True
  end.

(** ** Process start *)

(** [os.getenv(name)]: the environment maps names to strings, an unset
    name gives [None]. *)
Definition getenv (env : gmap string string) (name : string) : option string :=
  env !! name.

(** The dependencies [main] builds from the environment before it runs
    the agent on its fixed query. *)
Definition main_deps (env : gmap string string) : Deps :=
  {| weather_api_key := getenv env "WEATHER_API_KEY";
     geo_api_key := getenv env "GEO_API_KEY";
     aqi_api_key := getenv env "AQI_API_KEY" |}.

Definition main_query : string := "What is the weather in Amsterdam?".

(** ** Proof automation *)

(** Case analysis on the decoded body, along the tests of [get_aqi]. *)
Ltac aqi_body_cases data :=
  let fields := fresh "fields" in
  let Hdata := fresh "Hdata" in
  let Haqi := fresh "Haqi" in
  destruct data as [| ? | ? | ? | ? | ? | fields | ?]; try reflexivity;
  simpl;
  destruct (is_str "ok" (default JNull (assoc "status" fields))); [| reflexivity];
  simpl; unfold has_key;
  destruct (assoc "data" fields) as [[| ? | ? | ? | ?s | ?items | ?d | ?] |] eqn:Hdata;
  simpl; rewrite ?Hdata; simpl; try reflexivity;
  [ destruct (is_substring "aqi" s)
  | destruct (existsb (is_str "aqi") items)
  | unfold has_key; destruct (assoc "aqi" d) eqn:Haqi ];
  simpl; rewrite ?Hdata; simpl; rewrite ?Haqi; reflexivity.

(** * Properties *)

(** ** Running tool programs *)

Lemma run_bind {A B : Type} (net : network) (p : tool A) (f : A -> tool B) :
  run net (p ≫= f) =
  match run net p with
  | Returned a => run net (f a)
  | Raised e => Raised e
  end.
Proof.
  unfold mbind, tool_bind.
  induction p as [a | e | rq k IH]; simpl; auto.
Qed.

Lemma run_try_except {A : Type} (net : network) (p : tool A) h :
  run net (try_except p h) =
  match run net p with
  | Returned a => Returned a
  | Raised e => match h e with Some q => run net q | None => Raised e end
  end.
Proof.
  induction p as [a | e | rq k IH]; simpl; auto.
  destruct (h e); reflexivity.
Qed.

Lemma run_client_get (net : network) (rq : request) (r : response) :
  net rq = Answered r -> run net (client_get rq) = Returned r.
Proof. intros H. simpl. rewrite H. reflexivity. Qed.

Lemma run_requests_get (net : network) (rq : request) :
  run net (requests_get rq) =
  match net rq with
  | Unreachable => Raised RequestException
  | Answered r => Returned r
  end.
Proof. simpl. destruct (net rq); reflexivity. Qed.

(** ** get_lat_lng and get_weather without a credential *)

(** C5: with no geocoding credential [get_lat_lng] is the constant
    program returning [{'lat': 51.1, 'lng': -0.1}] whatever the location
    description, and with no weather credential [get_weather] is the
    constant program returning [{'temperature': '21 °C', 'description':
    'Sunny'}] whatever the coordinates; neither issues a request. *)
Theorem fallback_without_credential (ctx : Deps) :
  (geo_api_key ctx = None ->
   forall (location_description : string) (net : network),
     get_lat_lng ctx location_description
       = Return (JObj [("lat", JFloat (511 # 10)); ("lng", JFloat (- 1 # 10))]) /\
     requests_of net (get_lat_lng ctx location_description) = []) /\
  (weather_api_key ctx = None ->
   forall (lat lng : Q) (net : network),
     get_weather ctx lat lng
       = Return (JObj [("temperature", JStr "21 °C"); ("description", JStr "Sunny")]) /\
     requests_of net (get_weather ctx lat lng) = []).
Proof.
  split; intros Hkey; intros.
  - unfold get_lat_lng. rewrite Hkey. split; reflexivity.
  - unfold get_weather. rewrite Hkey. split; reflexivity.
Qed.

Lemma fallback_without_credential_witness :
  (get_lat_lng no_credentials "Amsterdam"
     = Return (JObj [("lat", JFloat (511 # 10)); ("lng", JFloat (- 1 # 10))]) /\
   requests_of offline (get_lat_lng no_credentials "Amsterdam") = []) /\
  (get_weather no_credentials (511 # 10) (- 1 # 10)
     = Return (JObj [("temperature", JStr "21 °C"); ("description", JStr "Sunny")]) /\
   requests_of offline (get_weather no_credentials (511 # 10) (- 1 # 10)) = []).
Proof.
  destruct (fallback_without_credential no_credentials) as [Hgeo Hweather].
  split; [apply Hgeo | apply Hweather]; reflexivity.
Defined.

(** ** get_lat_lng with a credential *)

Lemma run_get_lat_lng (ctx : Deps) (key loc : string) (net : network) (data : json) :
  geo_api_key ctx = Some key ->
  net (GeocodeSearch loc key) = Answered {| error_status := false; body := Some data |} ->
  run net (get_lat_lng ctx loc) =
  if truthy data
  then run net (first ← getitem_0 data;
                lat ← getitem_str first "lat";
                first' ← getitem_0 data;
                lon ← getitem_str first' "lon";
                Return (JObj [("lat", lat); ("lng", lon)]))
  else Raised (ModelRetry "Could not find the location").
Proof.
  intros Hkey Hnet. unfold get_lat_lng. rewrite Hkey.
  rewrite run_bind, (run_client_get _ _ _ Hnet).
  rewrite run_bind. simpl. destruct (truthy data); reflexivity.
Qed.

(** C6: with a geocoding credential, when the lookup is answered
    without error status by an empty result list, [get_lat_lng] raises
    [ModelRetry('Could not find the location')]: the call neither
    returns a value nor fails fatally, it is the Retryable failure
    carrying that guidance text. *)
Theorem get_lat_lng_no_match (ctx : Deps) (key loc : string) (net : network) :
  geo_api_key ctx = Some key ->
  net (GeocodeSearch loc key) = Answered {| error_status := false; body := Some (JArr []) |} ->
  run net (get_lat_lng ctx loc) = Raised (ModelRetry "Could not find the location") /\
  classify (run net (get_lat_lng ctx loc)) = Failure Retryable "Could not find the location".
Proof.
  intros Hkey Hnet.
  rewrite (run_get_lat_lng ctx key loc net _ Hkey Hnet). split; reflexivity.
Qed.

Lemma get_lat_lng_no_match_witness :
  run (answering (JArr [])) (get_lat_lng all_credentials "Nowhere")
    = Raised (ModelRetry "Could not find the location") /\
  classify (run (answering (JArr [])) (get_lat_lng all_credentials "Nowhere"))
    = Failure Retryable "Could not find the location".
Proof.
  apply (get_lat_lng_no_match all_credentials "g-key" "Nowhere" (answering (JArr [])));
    reflexivity.
Defined.

(** C9: with a geocoding credential, when the lookup is answered by a
    non-empty list whose first element holds [lat] and [lon],
    [get_lat_lng] returns [{'lat': lat, 'lng': lon}] of that first
    element; the other matches have no influence on the result. *)
Theorem get_lat_lng_first_match (ctx : Deps) (key loc : string) (net : network)
    (fields : list (string * json)) (rest : list json) (lat lon : json) :
  geo_api_key ctx = Some key ->
  net (GeocodeSearch loc key)
    = Answered {| error_status := false; body := Some (JArr (JObj fields :: rest)) |} ->
  assoc "lat" fields = Some lat ->
  assoc "lon" fields = Some lon ->
  run net (get_lat_lng ctx loc) = Returned (JObj [("lat", lat); ("lng", lon)]).
Proof.
  intros Hkey Hnet Hlat Hlon.
  rewrite (run_get_lat_lng ctx key loc net _ Hkey Hnet).
  simpl. rewrite Hlat. simpl. rewrite Hlon. reflexivity.
Qed.

Lemma get_lat_lng_first_match_witness :
  run (answering (JArr [JObj [("lat", JStr "52.37"); ("lon", JStr "4.89")];
                        JObj [("lat", JStr "40.71"); ("lon", JStr "-74.0")]]))
      (get_lat_lng all_credentials "Amsterdam")
  = Returned (JObj [("lat", JStr "52.37"); ("lng", JStr "4.89")]).
Proof.
  apply (get_lat_lng_first_match all_credentials "g-key" "Amsterdam" _
           [("lat", JStr "52.37"); ("lon", JStr "4.89")]
           [JObj [("lat", JStr "40.71"); ("lon", JStr "-74.0")]]);
    reflexivity.
Defined.

(** ** Rounding *)

Lemma append_assoc (s1 s2 s3 : string) : (s1 ++ s2) ++ s3 = s1 ++ (s2 ++ s3).
Proof.
  induction s1 as [| c s1 IH]; [reflexivity |].
  change (String c ((s1 ++ s2) ++ s3) = String c (s1 ++ (s2 ++ s3))).
  rewrite IH. reflexivity.
Qed.

Lemma round_half_even_nearest (q : Q) :
  (Qabs (inject_Z (round_half_even q) - q) <= 1 # 2)%Q.
Proof.
  unfold round_half_even.
  pose proof (Qfloor_le q) as Hlo.
  pose proof (Qlt_floor q) as Hhi.
  rewrite inject_Z_plus in Hhi. change (inject_Z 1) with 1%Q in Hhi.
  apply Qabs_Qle_condition.
  destruct (Qcompare_spec (q - inject_Z (Qfloor q)) (1 # 2)) as [He | Hl | Hg];
    [destruct (Z.even (Qfloor q)) | |];
    rewrite ?inject_Z_plus; change (inject_Z 1) with 1%Q;
    set (f := inject_Z (Qfloor q)) in *; lra.
Qed.

Lemma round_half_even_tie (q : Q) :
  (q - inject_Z (Qfloor q) == 1 # 2)%Q -> Z.even (round_half_even q) = true.
Proof.
  intros Htie. unfold round_half_even.
  apply Qeq_alt in Htie. rewrite Htie.
  destruct (Z.even (Qfloor q)) eqn:He; [assumption |].
  rewrite Z.even_add, He. reflexivity.
Qed.

Lemma round_half_even_inject (n : Z) : round_half_even (inject_Z n) = n.
Proof.
  unfold round_half_even. rewrite Qfloor_Z.
  destruct (Qcompare_spec (inject_Z n - inject_Z n) (1 # 2)) as [H | H | H];
    [exfalso | reflexivity | exfalso]; set (x := inject_Z n) in *; lra.
Qed.

Lemma float_of_int_exact (z : Z) :
  Z.abs z < 2 ^ 53 -> float_of_int z = Some (inject_Z z).
Proof.
  intros Hz. unfold float_of_int.
  assert (Hlog : Z.log2 (Z.abs z) - 52 <= 0).
  { destruct (Z.eq_dec (Z.abs z) 0) as [-> | Hne]; [simpl; lia |].
    assert (Z.log2 (Z.abs z) < 53) by (apply Z.log2_lt_pow2; lia).
    lia. }
  apply Z.leb_le in Hlog. rewrite Hlog. reflexivity.
Qed.

Lemma format_0f_inject (z : Z) :
  format_0f (inject_Z z) = (if Z.leb 0 z then "" else "-") ++ pretty (Z.to_N (Z.abs z)).
Proof.
  unfold format_0f.
  change (Qabs (inject_Z z)) with (inject_Z (Z.abs z)).
  rewrite round_half_even_inject.
  unfold Qle_bool. cbn [Qnum Qden inject_Z]. rewrite !Z.mul_1_r. reflexivity.
Qed.

Lemma round_half_even_nonneg (q : Q) : (0 <= q)%Q -> 0 <= round_half_even q.
Proof.
  intros Hq.
  pose proof (round_half_even_nearest q) as Hnear.
  apply Qabs_Qle_condition in Hnear.
  assert (H : (- (1) < inject_Z (round_half_even q))%Q) by lra.
  change (- (1))%Q with (inject_Z (-1)) in H.
  rewrite <- Zlt_Qlt in H. lia.
Qed.

Lemma format_0f_rounded (q : Q) : rounded_to q (format_0f q).
Proof.
  exists (round_half_even (Qabs q)). split; [| split; [| split]].
  - apply round_half_even_nonneg, Qabs_nonneg.
  - reflexivity.
  - apply round_half_even_nearest.
  - apply round_half_even_tie.
Qed.

Lemma round_half_even_tie_abs (q : Q) :
  (Qabs (inject_Z (round_half_even q) - q) == 1 # 2)%Q ->
  Z.even (round_half_even q) = true.
Proof.
  unfold round_half_even.
  pose proof (Qfloor_le q) as Hlo.
  pose proof (Qlt_floor q) as Hhi.
  rewrite inject_Z_plus in Hhi. change (inject_Z 1) with 1%Q in Hhi.
  destruct (Qcompare_spec (q - inject_Z (Qfloor q)) (1 # 2)) as [He | Hl | Hg].
  - intros _. destruct (Z.even (Qfloor q)) eqn:Heven; [exact Heven |].
    rewrite Z.even_add, Heven. reflexivity.
  - intros H. exfalso. rewrite Qabs_neg in H by lra. lra.
  - intros H. exfalso. rewrite inject_Z_plus in H.
    change (inject_Z 1) with 1%Q in H.
    rewrite Qabs_pos in H by lra. lra.
Qed.

(** Rounding a fraction [a / p], in integers. *)
Lemma round_half_even_scaled (a p : Z) :
  0 <= a -> 0 < p ->
  let m := round_half_even (a # Z.to_pos p) in
  0 <= m /\
  2 * Z.abs (m * p - a) <= p /\
  (2 * Z.abs (m * p - a) = p -> Z.even m = true).
Proof.
  intros Ha Hp m.
  assert (Hq : (0 <= a # Z.to_pos p)%Q).
  { unfold Qle. cbn [Qnum Qden]. lia. }
  pose proof (round_half_even_nonneg _ Hq) as Hm.
  pose proof (round_half_even_nearest (a # Z.to_pos p)) as Hnear.
  pose proof (round_half_even_tie_abs (a # Z.to_pos p)) as Htie.
  fold m in Hm, Hnear, Htie.
  apply Qabs_Qle_condition in Hnear. destruct Hnear as [Hlo Hhi].
  unfold Qle, Qminus, Qplus, Qopp, inject_Z in Hlo, Hhi.
  cbn [Qnum Qden] in Hlo, Hhi.
  rewrite ?Pos2Z.inj_mul, ?Z2Pos.id in Hlo, Hhi by lia.
  split; [exact Hm |]. split; [nia |].
  intros H. apply Htie.
  unfold Qeq, Qabs, Qminus, Qplus, Qopp, inject_Z. cbn [Qnum Qden].
  rewrite ?Pos2Z.inj_mul, ?Z2Pos.id by lia. nia.
Qed.

Lemma float_of_int_nearest (z : Z) (q : Q) :
  float_of_int z = Some q -> nearest_float z q.
Proof.
  unfold float_of_int, nearest_float.
  destruct (Z.ltb_spec (Z.abs z) (2 ^ 53)) as [Hsmall | Hbig].
  - assert (Hlog : Z.log2 (Z.abs z) - 52 <= 0).
    { destruct (Z.eq_dec (Z.abs z) 0) as [-> | Hne]; [simpl; lia |].
      assert (Z.log2 (Z.abs z) < 53) by (apply Z.log2_lt_pow2; lia). lia. }
    apply Z.leb_le in Hlog. rewrite Hlog. intros H. injection H as <-. reflexivity.
  - assert (Hlog : 53 <= Z.log2 (Z.abs z)) by (apply Z.log2_le_pow2; lia).
    assert (Hleb : Z.leb (Z.log2 (Z.abs z) - 52) 0 = false) by (apply Z.leb_gt; lia).
    rewrite Hleb.
    set (e := Z.log2 (Z.abs z) - 52).
    assert (Hp : 0 < 2 ^ e) by (apply Z.pow_pos_nonneg; lia).
    destruct (round_half_even_scaled (Z.abs z) (2 ^ e)) as (Hm & Hnear & Htie);
      [lia | exact Hp |].
    set (m := round_half_even (Z.abs z # Z.to_pos (2 ^ e))) in *.
    destruct (Z.ltb_spec (m * 2 ^ e) (2 ^ 1024)) as [Hfit | Hover]; [| discriminate].
    intros H. injection H as <-.
    exists m. repeat split; auto.
Qed.

Lemma float_of_int_in_range (z : Z) :
  Z.abs z < 2 ^ 1024 - 2 ^ 970 -> exists q, float_of_int z = Some q.
Proof.
  intros Hz. unfold float_of_int.
  destruct (Z.leb_spec (Z.log2 (Z.abs z) - 52) 0) as [Hle | Hgt]; [eauto |].
  set (e := Z.log2 (Z.abs z) - 52) in *.
  assert (Hp : 0 < 2 ^ e) by (apply Z.pow_pos_nonneg; lia).
  destruct (round_half_even_scaled (Z.abs z) (2 ^ e)) as (Hm & Hnear & _);
    [lia | exact Hp |].
  set (m := round_half_even (Z.abs z # Z.to_pos (2 ^ e))) in *.
  assert (Hpos : 0 < Z.abs z).
  { destruct (Z.eq_dec (Z.abs z) 0) as [H0 | ?]; [| lia].
    unfold e in Hgt. rewrite H0 in Hgt. simpl in Hgt. lia. }
  assert (Hlog : Z.log2 (Z.abs z) < 1024).
  { apply Z.log2_lt_pow2; [exact Hpos |].
    assert (0 < 2 ^ 970) by (apply Z.pow_pos_nonneg; lia). lia. }
  assert (Hspacing : 2 ^ e <= 2 ^ 971) by (apply Z.pow_le_mono_r; lia).
  assert (Hhalf : 2 ^ 971 = 2 * 2 ^ 970) by reflexivity.
  assert (Hfit : m * 2 ^ e < 2 ^ 1024) by lia.
  apply Z.ltb_lt in Hfit. rewrite Hfit. eauto.
Qed.

(** At the midpoint the conversion overflows. *)
Example float_of_int_edge :
  float_of_int (2 ^ 1024 - 2 ^ 970) = None /\
  float_of_int (2 ^ 1024 - 2 ^ 970 - 1) = Some (inject_Z (2 ^ 1024 - 2 ^ 971)).
Proof. split; vm_compute; reflexivity. Qed.

(** ** get_weather with a credential *)

Lemma run_get_weather (ctx : Deps) (key : string) (lat lng : Q) (net : network)
    (values : list (string * json)) :
  weather_api_key ctx = Some key ->
  realtime_values net key lat lng values ->
  run net (get_weather ctx lat lng) =
  run net (apparent ← getitem_str (JObj values) "temperatureApparent";
           temperature ← format_value_0f apparent;
           code ← getitem_str (JObj values) "weatherCode";
           description ← code_lookup_get code;
           Return (JObj [("temperature", JStr (temperature ++ "°C"));
                         ("description", JStr description)])).
Proof.
  intros Hkey (top & d & Hnet & Hdata & Hvalues).
  unfold get_weather. rewrite Hkey.
  rewrite run_bind, (run_client_get _ _ _ Hnet).
  rewrite run_bind. simpl. rewrite Hdata. simpl. rewrite Hvalues. reflexivity.
Qed.

Lemma get_weather_reading (ctx : Deps) (key : string) (lat lng : Q) (net : network)
    (values : list (string * json)) (apparent code : json) (t : string) (k : option Z) :
  weather_api_key ctx = Some key ->
  realtime_values net key lat lng values ->
  assoc "temperatureApparent" values = Some apparent ->
  format_value_0f apparent = Return t ->
  assoc "weatherCode" values = Some code ->
  int_key code = Return k ->
  run net (get_weather ctx lat lng) =
  Returned (JObj [("temperature", JStr (t ++ "°C"));
                  ("description", JStr (default "Unknown" (k ≫= (code_lookup !!.))))]).
Proof.
  intros Hkey Hvals Happ Hfmt Hcode Hk.
  rewrite (run_get_weather ctx key lat lng net values Hkey Hvals).
  simpl. rewrite Happ. simpl. rewrite Hfmt. simpl. rewrite Hcode. simpl.
  unfold code_lookup_get. rewrite Hk. reflexivity.
Qed.

Lemma code_lookup_size : size code_lookup = 23%nat.
Proof. reflexivity. Qed.

(** C8: when the upstream call succeeds with an integer [weatherCode]
    [c], the description [get_weather] returns is the entry of [c] in
    the fixed 23-entry table [code_lookup], and for every [c] without an
    entry it is the literal ["Unknown"]; the tool returns in both
    cases. *)
Theorem get_weather_description (ctx : Deps) (key : string) (lat lng : Q) (net : network)
    (values : list (string * json)) (apparent : json) (t : string) (c : Z) :
  weather_api_key ctx = Some key ->
  realtime_values net key lat lng values ->
  assoc "temperatureApparent" values = Some apparent ->
  format_value_0f apparent = Return t ->
  assoc "weatherCode" values = Some (JInt c) ->
  exists d,
    run net (get_weather ctx lat lng)
      = Returned (JObj [("temperature", JStr (t ++ "°C")); ("description", JStr d)]) /\
    (forall name, code_lookup !! c = Some name -> d = name) /\
    (code_lookup !! c = None -> d = "Unknown").
Proof.
  intros Hkey Hvals Happ Hfmt Hcode.
  exists (default "Unknown" (code_lookup !! c)). split.
  - apply (get_weather_reading ctx key lat lng net values apparent (JInt c) t (Some c));
      auto.
  - split; [intros name Hname | intros Hnone].
    + rewrite Hname. reflexivity.
    + rewrite Hnone. reflexivity.
Qed.

Lemma get_weather_description_witness :
  exists d,
    run (answering (JObj [("data", JObj [("values",
           JObj [("temperature", JFloat (18 # 1));
                 ("temperatureApparent", JFloat (33 # 2));
                 ("weatherCode", JInt 9999)])])]))
        (get_weather all_credentials (511 # 10) (- 1 # 10))
      = Returned (JObj [("temperature", JStr ("16" ++ "°C")); ("description", JStr d)]) /\
    (forall name, code_lookup !! 9999 = Some name -> d = name) /\
    (code_lookup !! 9999 = None -> d = "Unknown").
Proof.
  apply (get_weather_description all_credentials "w-key" _ _ _
           [("temperature", JFloat (18 # 1));
            ("temperatureApparent", JFloat (33 # 2));
            ("weatherCode", JInt 9999)]
           (JFloat (33 # 2))); try reflexivity.
  eexists _, _. repeat split; reflexivity.
Defined.

(** C10: when the upstream call succeeds and [temperatureApparent] is a
    number, the temperature string [get_weather] returns is that value
    in fixed notation without decimals followed by ["°C"]; the upstream
    [temperature] entry is not read.  For a float the string is the
    sign and the decimal digits of an integer at distance at most 1/2
    from the magnitude, the even one on a tie; an integer is first
    taken to the nearest float, itself below 2^53; a boolean gives
    ["1"] or ["0"]; negative zero, the infinities and NaN give ["-0"],
    ["inf"], ["-inf"] and ["nan"]. *)
Theorem get_weather_temperature (ctx : Deps) (key : string) (lat lng : Q) (net : network)
    (values : list (string * json)) (apparent code : json) (k : option Z) :
  weather_api_key ctx = Some key ->
  realtime_values net key lat lng values ->
  assoc "temperatureApparent" values = Some apparent ->
  numeric apparent ->
  assoc "weatherCode" values = Some code ->
  int_key code = Return k ->
  exists (t d : string),
    run net (get_weather ctx lat lng)
      = Returned (JObj [("temperature", JStr (t ++ "°C")); ("description", JStr d)]) /\
    match apparent with
    | JFloat q => rounded_to q t
    | JInt z => exists q, nearest_float z q /\ rounded_to q t
    | JBool b => t = if b then "1" else "0"
    | JSpecial neg_zero => t = "-0"
    | JSpecial pos_inf => t = "inf"
    | JSpecial neg_inf => t = "-inf"
    | JSpecial not_a_number => t = "nan"
    | _ => False
    end.
Proof.
  intros Hkey Hvals Happ Hnum Hcode Hk.
  assert (Hfmt : exists t,
             format_value_0f apparent = Return t /\
             match apparent with
             | JFloat q => rounded_to q t
             | JInt z => exists q, nearest_float z q /\ rounded_to q t
             | JBool b => t = if b then "1" else "0"
             | JSpecial neg_zero => t = "-0"
             | JSpecial pos_inf => t = "inf"
             | JSpecial neg_inf => t = "-inf"
             | JSpecial not_a_number => t = "nan"
             | _ => False
             end).
  { destruct apparent as [| b | z | q | | | | f]; try contradiction.
    - exists (if b then "1" else "0"). split; reflexivity.
    - destruct (float_of_int_in_range z Hnum) as [q Hq].
      exists (format_0f q). split.
      + unfold format_value_0f. rewrite Hq. reflexivity.
      + exists q. split; [apply float_of_int_nearest, Hq | apply format_0f_rounded].
    - exists (format_0f q). split; [reflexivity | apply format_0f_rounded].
    - exists (format_special_0f f). split; [reflexivity |]. destruct f; reflexivity. }
  destruct Hfmt as (t & Hfmt & Ht).
  exists t, (default "Unknown" (k ≫= (code_lookup !!.))). split; [| exact Ht].
  apply (get_weather_reading ctx key lat lng net values apparent code t k); auto.
Qed.

Lemma get_weather_temperature_witness :
  exists (t d : string),
    run (answering (JObj [("data", JObj [("values",
           JObj [("temperature", JFloat (18 # 1));
                 ("temperatureApparent", JInt 17);
                 ("weatherCode", JInt 1001)])])]))
        (get_weather all_credentials (511 # 10) (- 1 # 10))
      = Returned (JObj [("temperature", JStr (t ++ "°C")); ("description", JStr d)]) /\
    exists q, nearest_float 17 q /\ rounded_to q t.
Proof.
  apply (get_weather_temperature all_credentials "w-key" _ _ _
           [("temperature", JFloat (18 # 1));
            ("temperatureApparent", JInt 17);
            ("weatherCode", JInt 1001)]
           (JInt 17) (JInt 1001) (Some 1001)); try reflexivity.
  eexists _, _. repeat split; reflexivity.
Defined.

(** The readings the rational model of floats does not reach. *)
Example get_weather_special_temperatures :
  map (λ f, run (answering (JObj [("data", JObj [("values",
                   JObj [("temperatureApparent", JSpecial f);
                         ("weatherCode", JInt 1000)])])]))
                (get_weather all_credentials (511 # 10) (- 1 # 10)))
      [neg_zero; pos_inf; neg_inf; not_a_number]
  = map (λ t, Returned (JObj [("temperature", JStr t);
                              ("description", JStr "Clear, Sunny")]))
        ["-0°C"; "inf°C"; "-inf°C"; "nan°C"].
Proof. reflexivity. Qed.

(** ** get_aqi *)

Lemma run_get_aqi (ctx : Deps) (lat lon : Q) (net : network) :
  run net (get_aqi ctx lat lon) =
  match net (WaqiFeed lat lon (aqi_api_key ctx)) with
  | Unreachable => Returned JNull
  | Answered r =>
      if error_status r then Returned JNull
      else match body r with
           | None => Returned JNull
           | Some data =>
               match data with
               | JObj fields =>
                   if is_str "ok" (default JNull (assoc "status" fields))
                   then match assoc "data" fields with
                        | None => Returned JNull
                        | Some (JObj d) => Returned (default JNull (assoc "aqi" d))
                        | Some (JArr items) =>
                            if existsb (is_str "aqi") items then Raised TypeError
                            else Returned JNull
                        | Some (JStr s) =>
                            if is_substring "aqi" s then Raised TypeError
                            else Returned JNull
                        | Some _ => Raised TypeError
                        end
                   else Returned JNull
               | _ => Raised AttributeError
               end
           end
  end.
Proof.
  unfold get_aqi.
  rewrite run_try_except, run_bind, run_requests_get.
  destruct (net (WaqiFeed lat lon (aqi_api_key ctx))) as [| [err [data |]]]; simpl;
    [reflexivity | | destruct err; reflexivity].
  destruct err; [reflexivity |]. simpl.
  aqi_body_cases data.
Qed.

(** The cases in which [get_aqi] answers [None]. *)
Lemma get_aqi_absent (ctx : Deps) (lat lon : Q) (net : network) :
  (net (WaqiFeed lat lon (aqi_api_key ctx)) = Unreachable \/
   exists r, net (WaqiFeed lat lon (aqi_api_key ctx)) = Answered r /\
     (error_status r = true \/ body r = None \/
      exists fields, body r = Some (JObj fields) /\
        (is_str "ok" (default JNull (assoc "status" fields)) = false \/
         assoc "data" fields = None \/
         exists d, assoc "data" fields = Some (JObj d) /\ assoc "aqi" d = None))) ->
  run net (get_aqi ctx lat lon) = Returned JNull.
Proof.
  intros H. rewrite run_get_aqi.
  destruct H as [-> | (r & -> & H)]; [reflexivity |].
  destruct (error_status r); [reflexivity |].
  destruct H as [H | [-> | (fields & -> & H)]]; [discriminate | reflexivity |].
  destruct (is_str "ok" (default JNull (assoc "status" fields))); [| reflexivity].
  destruct H as [H | [-> | (d & -> & ->)]]; [discriminate | reflexivity | reflexivity].
Qed.

(** C7: a response without error status whose body is
    [{"status": "ok", "data": null}] has no [aqi] entry, and [get_aqi]
    raises [TypeError] on it ([in] applied to [None]), which
    [except requests.RequestException] does not catch; likewise a body
    that is not an object raises [AttributeError]. *)
Theorem get_aqi_raises_on_unexpected_body (ctx : Deps) (lat lon : Q) :
  run (answering (JObj [("status", JStr "ok"); ("data", JNull)])) (get_aqi ctx lat lon)
    = Raised TypeError /\
  run (answering (JArr [])) (get_aqi ctx lat lon) = Raised AttributeError.
Proof. rewrite !run_get_aqi. split; reflexivity. Qed.

(** C4: [get_aqi] has no branch on its credential.  With every
    credential absent it still sends the request, with the token
    [None], and its result is what the network makes of it: the reading
    of the response, [None] off line, an uncaught exception on a body
    that is not an object.  [get_lat_lng] and [get_weather] in the same
    configuration return their fixed values without any request. *)
Theorem get_aqi_without_credential (lat lon : Q) :
  (forall net, requests_of net (get_aqi no_credentials lat lon) = [WaqiFeed lat lon None]) /\
  run (answering (JObj [("status", JStr "ok"); ("data", JObj [("aqi", JInt 42)])]))
      (get_aqi no_credentials lat lon) = Returned (JInt 42) /\
  run offline (get_aqi no_credentials lat lon) = Returned JNull /\
  run (answering (JArr [])) (get_aqi no_credentials lat lon) = Raised AttributeError /\
  (forall net, requests_of net (get_lat_lng no_credentials "Amsterdam") = []) /\
  (forall net, requests_of net (get_weather no_credentials lat lon) = []).
Proof.
  rewrite !run_get_aqi. repeat split; try reflexivity.
  intros net. unfold get_aqi. simpl.
  destruct (net (WaqiFeed lat lon None)) as [| [err [data |]]]; simpl;
    [reflexivity | | destruct err; reflexivity].
  destruct err; [reflexivity |]. simpl.
  aqi_body_cases data.
Qed.

(** ** Output validation *)

Lemma ap_valid {A B : Type} (f : checked (A -> B)) (x : checked A) (b : B) :
  ap f x = Valid b <-> exists g a, f = Valid g /\ x = Valid a /\ b = g a.
Proof.
  split.
  - destruct f as [g | e1], x as [a | e2]; simpl; intros H; try discriminate.
    injection H as <-. eauto.
  - intros (g & a & -> & -> & ->). reflexivity.
Qed.

Lemma under_valid {A : Type} (p : place) (c : checked A) (a : A) :
  under p c = Valid a <-> c = Valid a.
Proof. destruct c; simpl; split; congruence. Qed.

Lemma required_str_valid (name : string) (fields : list (string * json)) (s : string) :
  required name check_str fields = Valid s <-> str_field_is name s fields.
Proof.
  unfold required, str_field_is.
  destruct (assoc name fields) as [v |]; [| split; discriminate].
  rewrite under_valid. destruct v; simpl; split; congruence.
Qed.

Lemma required_int_valid (name : string) (fields : list (string * json)) (z : Z) :
  required name check_int fields = Valid z <-> int_field_is name z fields.
Proof.
  unfold required, int_field_is.
  destruct (assoc name fields) as [v |].
  - rewrite under_valid. split; [eauto |].
    intros (v' & Hv & Hz). congruence.
  - split; [discriminate | intros (v' & Hv & _); discriminate].
Qed.

Lemma validate_item_valid (v : json) (o : Structured_Output) :
  validate_item v = Valid o <-> item_reads_as v o.
Proof.
  unfold item_reads_as. split.
  - destruct v as [| | | | | | fields |]; try discriminate.
    unfold validate_item. intros H.
    apply ap_valid in H as (g4 & d & H & Hd & ->).
    apply ap_valid in H as (g3 & a & H & Ha & ->).
    apply ap_valid in H as (g2 & t & H & Ht & ->).
    apply ap_valid in H as (g1 & l & H & Hl & ->).
    injection H as <-.
    exists fields. cbn [location temperature aqi description].
    rewrite <- !required_str_valid, <- required_int_valid. auto.
  - intros (fields & -> & Hl & Ht & Ha & Hd). unfold validate_item.
    apply required_str_valid in Hl, Ht, Hd. apply required_int_valid in Ha.
    rewrite Hl, Ht, Ha, Hd. destruct o; reflexivity.
Qed.

Lemma validate_items_valid (items : list json) (out : list Structured_Output) (i : nat) :
  validate_items i items = Valid out <-> Forall2 item_reads_as items out.
Proof.
  revert out i. induction items as [| v rest IH]; intros out i; cbn [validate_items].
  - split.
    + intros H. injection H as <-. constructor.
    + intros H. inversion H. reflexivity.
  - split.
    + intros H.
      apply ap_valid in H as (g & os & H & Hrest & ->).
      apply ap_valid in H as (c & o & H & Ho & ->).
      injection H as <-.
      constructor.
      * apply validate_item_valid. apply under_valid in Ho. exact Ho.
      * apply (IH os (S i)). exact Hrest.
    + intros H. inversion H as [| v' o rest' os Ho Hos]; subst.
      apply validate_item_valid in Ho. apply (IH os (S i)) in Hos.
      rewrite Ho, Hos. reflexivity.
Qed.








(** Every list of validated items is the reading of some candidate. *)
Lemma validate_item_json (o : Structured_Output) : validate_item (item_json o) = Valid o.
Proof. destruct o; reflexivity. Qed.

Lemma validate_output_item_json (out : list Structured_Output) :
  validate_output (JArr (map item_json out)) = Valid out.
Proof.
  apply validate_items_valid.
  induction out as [| o out IH]; simpl; constructor; auto.
  apply validate_item_valid, validate_item_json.
Qed.

(** ** Reading an integer from a string *)













(** What the integer rule reads from strings and floats. *)
Example check_int_samples :
  map check_int [JStr "42"; JStr " 42 "; JStr "42.0"; JStr "1_000"; JStr "-7";
                 JFloat (5 # 1); JSpecial neg_zero]
    = map Valid [42; 42; 42; 1000; -7; 5; 0] /\
  map check_int [JStr ""; JStr "4.5"; JStr "ten";
                 JFloat (9 # 2); JFloat (inject_Z (2 ^ 63)); JSpecial not_a_number;
                 JNull; JArr []]
    = map (λ p, Invalid [([], p)])
          [int_parsing; int_parsing; int_parsing;
           int_from_float; int_parsing_size; finite_number; int_type; int_type].
Proof. split; reflexivity. Qed.


(** ** The controller on tool results *)

Lemma dispatch_all_success net deps (calls : list ToolCall) :
  Forall (λ c, exists v, invoke net deps c = Success v) calls ->
  first_fatal (dispatch net deps calls) = None /\
  existsb (λ cr, is_retryable (snd cr)) (dispatch net deps calls) = false.
Proof.
  induction 1 as [| c cs (v & Hv) _ [IHf IHr]]; simpl; [split; reflexivity |].
  rewrite Hv. simpl. auto.
Qed.

Lemma step_dispatch_success plan net deps (calls : list ToolCall) retry0 conv :
  Forall (λ c, exists v, invoke net deps c = Success v) calls ->
  step plan net deps
       {| at_phase := Dispatching calls; retry := retry0; conversation := conv |}
  = {| at_phase := Planning; retry := retry0;
       conversation := (conv ++ [Dispatched (dispatch net deps calls)])%list |}.
Proof.
  intros Hall. destruct (dispatch_all_success net deps calls Hall) as [Hfatal Hretry].
  unfold step. simpl. rewrite Hfatal, Hretry. reflexivity.
Qed.

(** C3 (amended): when [get_aqi] returns [None], the call is an
    ordinary successful tool result: the controller records it and goes
    back to planning with the retry count unchanged.  The schema stays
    satisfiable, since every item with an integer [aqi] is accepted.
    But [aqi] is declared [int] and has no value for the absent
    reading: an item whose [aqi] is [None] is rejected with a
    diagnostic on that field. *)
Theorem absent_aqi_reading plan net deps (lat lon : Q) retry0 conv
    (o : Structured_Output) (l t d : string) :
  run net (get_aqi deps lat lon) = Returned JNull ->
  step plan net deps
       {| at_phase := Dispatching [call_get_aqi lat lon]; retry := retry0;
          conversation := conv |}
    = {| at_phase := Planning; retry := retry0;
         conversation := (conv ++ [Dispatched [(call_get_aqi lat lon, Success JNull)]])%list |} /\
  validate_output (JArr [item_json o]) = Valid [o] /\
  validate_output (JArr [JObj [("location", JStr l); ("temperature", JStr t);
                               ("aqi", JNull); ("description", JStr d)]])
    = Invalid [([at_index 0; at_field "aqi"], int_type)].
Proof.
  intros Hnone. split; [| split].
  - rewrite step_dispatch_success.
    + unfold dispatch. cbn [map invoke]. rewrite Hnone. reflexivity.
    + constructor; [| constructor]. exists JNull. cbn [invoke]. rewrite Hnone. reflexivity.
  - apply (validate_output_item_json [o]).
  - reflexivity.
Qed.

Lemma absent_aqi_reading_witness :
  step steady_planner offline no_credentials
       {| at_phase := Dispatching [call_get_aqi (511 # 10) (- 1 # 10)];
          retry := {| round_count := 0; max_rounds := retries |};
          conversation := [] |}
    = {| at_phase := Planning;
         retry := {| round_count := 0; max_rounds := retries |};
         conversation := ([] ++ [Dispatched [(call_get_aqi (511 # 10) (- 1 # 10),
                                               Success JNull)]])%list |} /\
  validate_output
    (JArr [item_json {| location := "Amsterdam"; temperature := "21 °C";
                        aqi := 0; description := "Sunny" |}])
    = Valid [{| location := "Amsterdam"; temperature := "21 °C";
                aqi := 0; description := "Sunny" |}] /\
  validate_output (JArr [JObj [("location", JStr "Amsterdam"); ("temperature", JStr "21 °C");
                               ("aqi", JNull); ("description", JStr "Sunny")]])
    = Invalid [([at_index 0; at_field "aqi"], int_type)].
Proof.
  apply (absent_aqi_reading steady_planner offline no_credentials). reflexivity.
Defined.

(** C3, as stated, fails: the reading [get_aqi] returns off line is
    [None], and the answer that carries it in its [aqi] field is
    rejected. *)
Lemma absent_aqi_rejected :
  run offline (get_aqi no_credentials (511 # 10) (- 1 # 10)) = Returned JNull /\
  validate_output (JArr [amsterdam JNull])
    = Invalid [([at_index 0; at_field "aqi"], int_type)].
Proof. rewrite run_get_aqi. split; reflexivity. Qed.

(** ** The retry budget *)

Lemma retry_or_abort_counts (st : run_state) (guided : ConversationState) :
  (round_count (retry st) < max_rounds (retry st))%nat ->
  max_rounds (retry (retry_or_abort st guided)) = max_rounds (retry st) /\
  round_count (retry (retry_or_abort st guided)) = S (round_count (retry st)) /\
  match at_phase (retry_or_abort st guided) with
  | Aborted budget_exhausted => S (round_count (retry st)) = max_rounds (retry st)
  | Planning => (S (round_count (retry st)) < max_rounds (retry st))%nat
  | _ => False
  end.
Proof.
  intros Hlt. unfold retry_or_abort.
  destruct (Nat.ltb_spec (S (round_count (retry st))) (max_rounds (retry st))); simpl;
    repeat split; auto; lia.
Qed.

Lemma reachable_run_for plan net deps (n : nat) :
  reachable plan net deps (run_for plan net deps n (start retries)).
Proof. induction n; simpl; constructor; assumption. Qed.

(** While a run is not aborted for its budget the count is below the
    bound, and when it is, the count is the bound. *)
Lemma reachable_budget plan net deps (st : run_state) :
  reachable plan net deps st ->
  max_rounds (retry st) = retries /\
  match at_phase st with
  | Aborted budget_exhausted => round_count (retry st) = max_rounds (retry st)
  | _ => (round_count (retry st) < max_rounds (retry st))%nat
  end.
Proof.
  induction 1 as [| st Hreach [Hmax Hcount]].
  - split; [reflexivity |]. simpl. unfold retries. lia.
  - unfold step.
    destruct (at_phase st) as [| calls | payload | output | cause] eqn:Hphase.
    + simpl. split; [exact Hmax |].
      destruct (plan (conversation st)); exact Hcount.
    + destruct (first_fatal (dispatch net deps calls)); [simpl; auto |].
      destruct (existsb _ (dispatch net deps calls)); [| simpl; auto].
      match goal with
      | |- context [retry_or_abort ?s ?g] =>
          destruct (retry_or_abort_counts s g Hcount) as (Hm & Hc & Hp);
          destruct (at_phase (retry_or_abort s g)) as [| | | | []];
          simpl in *; try contradiction; split; lia
      end.
    + destruct (validate_output payload); [simpl; auto |].
      match goal with
      | |- context [retry_or_abort ?s ?g] =>
          destruct (retry_or_abort_counts s g Hcount) as (Hm & Hc & Hp);
          destruct (at_phase (retry_or_abort s g)) as [| | | | []];
          simpl in *; try contradiction; split; lia
      end.
    + rewrite Hphase. auto.
    + rewrite Hphase. auto.
Qed.

(** A transition adds one to the count when it is a retryable failure
    and leaves it alone otherwise; the bound never changes. *)
Lemma step_counts plan net deps (st : run_state) :
  round_count (retry (step plan net deps st))
    = (round_count (retry st) + if retryable_failure net deps st then 1 else 0)%nat /\
  max_rounds (retry (step plan net deps st)) = max_rounds (retry st).
Proof.
  unfold step, retryable_failure.
  destruct (at_phase st) as [| calls | payload | output | cause] eqn:Hphase.
  - simpl. split; lia.
  - destruct (first_fatal (dispatch net deps calls)); [simpl; split; lia |].
    destruct (existsb _ (dispatch net deps calls)); [| simpl; split; lia].
    unfold retry_or_abort. cbn [retry round_count max_rounds].
    destruct (Nat.ltb _ _); simpl; split; lia.
  - destruct (validate_output payload); [simpl; split; lia |].
    unfold retry_or_abort.
    destruct (Nat.ltb _ _); simpl; split; lia.
  - simpl. split; lia.
  - simpl. split; lia.
Qed.

Lemma run_for_failures plan net deps (n : nat) :
  round_count (retry (run_for plan net deps n (start retries))) = failures plan net deps n.
Proof.
  induction n as [| n IH]; [reflexivity |].
  change (run_for plan net deps (S n) (start retries))
    with (step plan net deps (run_for plan net deps n (start retries))).
  destruct (step_counts plan net deps (run_for plan net deps n (start retries))) as [Hc _].
  rewrite Hc, IH. reflexivity.
Qed.

Lemma run_for_terminal plan net deps (st : run_state) (m : nat) :
  step plan net deps st = st -> run_for plan net deps m st = st.
Proof.
  intros Hfix. induction m as [| m IH]; [reflexivity |].
  change (run_for plan net deps (S m) st) with (step plan net deps (run_for plan net deps m st)).
  rewrite IH. exact Hfix.
Qed.

(** C1: the agent is configured with one retry bound, 2, and the
    controller keeps one count against it for the whole run.  After
    any number of transitions the count is the number of retryable
    failures so far, rejected candidates and failed tool rounds
    together: each adds one, and planning, successful dispatch and
    validation leave the count as it is.  The count never exceeds the
    bound, it is at the bound exactly in the runs aborted for their
    budget, and such a run stays aborted: the failure that reaches the
    bound ends the run instead of re-planning. *)
Theorem retry_budget_bounded plan net deps (n : nat) :
  let st := run_for plan net deps n (start retries) in
  max_rounds (retry st) = 2%nat /\
  round_count (retry st) = failures plan net deps n /\
  round_count (retry (step plan net deps st))
    = (round_count (retry st) + if retryable_failure net deps st then 1 else 0)%nat /\
  (round_count (retry st) <= 2)%nat /\
  (round_count (retry st) = 2%nat <-> at_phase st = Aborted budget_exhausted) /\
  (at_phase st = Aborted budget_exhausted ->
   forall m, run_for plan net deps m st = st).
Proof.
  intros st.
  destruct (reachable_budget plan net deps st (reachable_run_for plan net deps n))
    as [Hmax Hcount].
  unfold retries in Hmax.
  split; [exact Hmax |]. split; [apply run_for_failures |].
  split; [apply step_counts |]. rewrite Hmax in Hcount.
  split; [| split].
  - destruct (at_phase st) as [| | | | []]; lia.
  - destruct (at_phase st) as [| | | | []]; split; intros H;
      try discriminate; try reflexivity; try lia; try exact Hcount.
  - intros Hphase m. apply run_for_terminal. unfold step. rewrite Hphase. reflexivity.
Qed.

(** Two failed tool rounds, two rejected answers, or one of each use
    up the budget; one failure followed by a valid answer does not. *)
Example budget_is_shared :
  let outcome plan net :=
    let st := run_for plan net all_credentials 4 (start retries) in
    (at_phase st, round_count (retry st), failures plan net all_credentials 4) in
  outcome stuck_planner (answering (JArr [])) = (Aborted budget_exhausted, 2%nat, 2%nat) /\
  outcome null_planner offline = (Aborted budget_exhausted, 2%nat, 2%nat) /\
  outcome lost_planner (answering (JArr [])) = (Aborted budget_exhausted, 2%nat, 2%nat) /\
  outcome recovering_planner offline
    = (Done [{| location := "Amsterdam"; temperature := "21 °C";
                aqi := 42; description := "Sunny" |}], 1%nat, 1%nat).
Proof. repeat split. Qed.

(** One unresolvable location and one rejected answer use up the
    budget of 2: the run is aborted at the second failure. *)
Example lost_run_aborts :
  run_for lost_planner (answering (JArr [])) all_credentials 4 (start retries)
  = {| at_phase := Aborted budget_exhausted;
       retry := {| round_count := 2; max_rounds := 2 |};
       conversation :=
         [Dispatched [(call_get_lat_lng "Nowhere",
                       Failure Retryable "Could not find the location")]] |}.
Proof. reflexivity. Qed.

(** Without credentials and off line, a planner that asks for the
    three readings and answers with an integer [aqi] ends in [Done]. *)
Example steady_run_done :
  at_phase (run_for steady_planner offline no_credentials 6 (start retries))
  = Done [{| location := "Amsterdam"; temperature := "21 °C";
             aqi := 42; description := "Sunny" |}].
Proof. reflexivity. Qed.

(** * Further properties of the tools *)

(** ** Requests issued by a program *)

Lemma requests_of_bind {A B : Type} (net : network) (p : tool A) (f : A -> tool B) :
  requests_of net (p ≫= f) =
  (requests_of net p ++
   match run net p with
   | Returned a => requests_of net (f a)
   | Raised _ => []
   end)%list.
Proof.
  unfold mbind, tool_bind.
  induction p as [a | e | rq k IH]; simpl; auto.
  rewrite IH. reflexivity.
Qed.

Lemma requests_of_try_except {A : Type} (net : network) (p : tool A) h :
  requests_of net (try_except p h) =
  (requests_of net p ++
   match run net p with
   | Returned _ => []
   | Raised e => match h e with Some q => requests_of net q | None => [] end
   end)%list.
Proof.
  induction p as [a | e | rq k IH]; simpl; auto.
  - destruct (h e); reflexivity.
  - rewrite IH. reflexivity.
Qed.

Lemma request_free_requests {A : Type} (net : network) (p : tool A) :
  request_free p -> requests_of net p = [].
Proof. destruct p; simpl; [reflexivity | reflexivity | contradiction]. Qed.

Lemma request_free_bind {A B : Type} (p : tool A) (f : A -> tool B) :
  request_free p -> (forall a, request_free (f a)) -> request_free (p ≫= f).
Proof.
  unfold mbind, tool_bind.
  destruct p; simpl; auto; contradiction.
Qed.

Lemma request_free_getitem_str (v : json) (key : string) : request_free (getitem_str v key).
Proof.
  destruct v as [| | | | | | fields |]; simpl; try exact I.
  destruct (assoc key fields); exact I.
Qed.

Lemma request_free_getitem_0 (v : json) : request_free (getitem_0 v).
Proof. destruct v as [| | | | [|] | [|] | |]; exact I. Qed.

Lemma request_free_dict_get (v : json) (key : string) : request_free (dict_get v key).
Proof. destruct v; exact I. Qed.

Lemma request_free_contains_str (key : string) (v : json) : request_free (contains_str key v).
Proof. destruct v; exact I. Qed.

Lemma request_free_format_value_0f (v : json) : request_free (format_value_0f v).
Proof.
  destruct v as [| | z | | | | |]; simpl; try exact I.
  destruct (float_of_int z); exact I.
Qed.

Lemma request_free_code_lookup_get (v : json) : request_free (code_lookup_get v).
Proof. destruct v; exact I. Qed.

Lemma request_free_raise_for_status (r : response) : request_free (raise_for_status r).
Proof. unfold raise_for_status. destruct (error_status r); exact I. Qed.

Lemma request_free_response_json (r : response) : request_free (response_json r).
Proof. unfold response_json. destruct (body r); exact I. Qed.

Lemma request_free_requests_raise_for_status (r : response) :
  request_free (requests_raise_for_status r).
Proof. unfold requests_raise_for_status. destruct (error_status r); exact I. Qed.

Lemma request_free_requests_json (r : response) : request_free (requests_json r).
Proof. unfold requests_json. destruct (body r); exact I. Qed.

Lemma request_free_if {A : Type} (b : bool) (p q : tool A) :
  request_free p -> request_free q -> request_free (if b then p else q).
Proof. destruct b; auto. Qed.

Lemma request_free_return {A : Type} (a : A) : request_free (Return a).
Proof. exact I. Qed.

Lemma request_free_raise {A : Type} (e : exn) : request_free (@Raise A e).
Proof. exact I. Qed.

Create HintDb request_free.

#[local] Hint Resolve request_free_bind request_free_if request_free_return
  request_free_raise request_free_getitem_str request_free_getitem_0 request_free_dict_get
  request_free_contains_str request_free_format_value_0f request_free_code_lookup_get
  request_free_raise_for_status request_free_response_json
  request_free_requests_raise_for_status request_free_requests_json : request_free.

Lemma requests_of_get (net : network) (rq : request) (get : request -> tool response)
    {B : Type} (f : response -> tool B) :
  (get = client_get \/ get = requests_get) ->
  (forall r, request_free (f r)) ->
  requests_of net (get rq ≫= f) = [rq].
Proof.
  intros Hget Hfree. rewrite requests_of_bind.
  destruct Hget as [-> | ->]; simpl; destruct (net rq) as [| r]; simpl; auto.
  all: rewrite request_free_requests; auto.
Qed.


(** ** Requests of the three tools *)

(** X1: whatever the credential and whatever the network answers,
    [get_aqi] sends exactly one request: the feed of the given
    coordinates with the configured token. *)
Theorem get_aqi_single_request (ctx : Deps) (lat lon : Q) (net : network) :
  requests_of net (get_aqi ctx lat lon) = [WaqiFeed lat lon (aqi_api_key ctx)].
Proof.
  unfold get_aqi. rewrite requests_of_try_except.
  rewrite (requests_of_get net _ requests_get).
  - destruct (run net _) as [v | []]; reflexivity.
  - auto.
  - intros r. auto 20 with request_free.
Qed.

(** X2: with a geocoding credential, [get_lat_lng] sends exactly one
    request, the search for the given description under that
    credential, whatever the network answers. *)
Theorem get_lat_lng_single_request (ctx : Deps) (key loc : string) (net : network) :
  geo_api_key ctx = Some key ->
  requests_of net (get_lat_lng ctx loc) = [GeocodeSearch loc key].
Proof.
  intros Hkey. unfold get_lat_lng. rewrite Hkey.
  apply (requests_of_get net _ client_get); [auto |].
  intros r. auto 20 with request_free.
Qed.

Lemma get_lat_lng_single_request_witness :
  requests_of offline (get_lat_lng all_credentials "Amsterdam")
    = [GeocodeSearch "Amsterdam" "g-key"].
Proof. apply (get_lat_lng_single_request all_credentials "g-key"). reflexivity. Defined.

(** X3: with a weather credential, [get_weather] sends exactly one
    request, the realtime reading at the given coordinates under that
    credential, whatever the network answers. *)
Theorem get_weather_single_request (ctx : Deps) (key : string) (lat lng : Q) (net : network) :
  weather_api_key ctx = Some key ->
  requests_of net (get_weather ctx lat lng) = [TomorrowRealtime key lat lng].
Proof.
  intros Hkey. unfold get_weather. rewrite Hkey.
  apply (requests_of_get net _ client_get); [auto |].
  intros r. auto 20 with request_free.
Qed.

Lemma get_weather_single_request_witness :
  requests_of (answering (JArr [])) (get_weather all_credentials (511 # 10) (- 1 # 10))
    = [TomorrowRealtime "w-key" (511 # 10) (- 1 # 10)].
Proof. apply (get_weather_single_request all_credentials "w-key"). reflexivity. Defined.

(** ** Outcomes of get_lat_lng *)

Lemma run_get_lat_lng_cases (ctx : Deps) (loc : string) (net : network) :
  run net (get_lat_lng ctx loc) =
  match geo_api_key ctx with
  | None => Returned london
  | Some key =>
      match net (GeocodeSearch loc key) with
      | Unreachable => Raised HTTPError
      | Answered r =>
          if error_status r then Raised HTTPError
          else match body r with
               | None => Raised JSONDecodeError
               | Some data =>
                   if truthy data then
                     match data with
                     | JArr (JObj fields :: _) =>
                         match assoc "lat" fields with
                         | None => Raised (KeyError (JStr "lat"))
                         | Some lat =>
                             match assoc "lon" fields with
                             | None => Raised (KeyError (JStr "lon"))
                             | Some lon => Returned (JObj [("lat", lat); ("lng", lon)])
                             end
                         end
                     | JObj _ => Raised (KeyError (JInt 0))
                     | _ => Raised TypeError
                     end
                   else Raised (ModelRetry "Could not find the location")
               end
      end
  end.
Proof.
  unfold get_lat_lng. destruct (geo_api_key ctx) as [key |]; [| reflexivity].
  rewrite run_bind. simpl.
  destruct (net (GeocodeSearch loc key)) as [| [[|] [data |]]]; try reflexivity.
  simpl. destruct (truthy data) eqn:Htruthy; [| reflexivity].
  destruct data as [| [|] | z | q | [| c s] | [| first rest] | fields | []]; try reflexivity;
    try discriminate.
  destruct first as [| | | | | | ffields |]; try reflexivity.
  simpl. destruct (assoc "lat" ffields); [| reflexivity].
  simpl. destruct (assoc "lon" ffields); reflexivity.
Qed.

(** X4: with a geocoding credential, a failure of the lookup itself is
    raised to the caller as it is: an unreachable service or an error
    status raises the HTTP client's error, a body that is not JSON
    raises the decoding error; none of them becomes a retry request or
    a fallback value. *)
Theorem get_lat_lng_upstream_failure (ctx : Deps) (key loc : string) (net : network) :
  geo_api_key ctx = Some key ->
  (net (GeocodeSearch loc key) = Unreachable ->
   run net (get_lat_lng ctx loc) = Raised HTTPError) /\
  (forall r, net (GeocodeSearch loc key) = Answered r -> error_status r = true ->
   run net (get_lat_lng ctx loc) = Raised HTTPError) /\
  (forall r, net (GeocodeSearch loc key) = Answered r -> error_status r = false ->
   body r = None ->
   run net (get_lat_lng ctx loc) = Raised JSONDecodeError).
Proof.
  intros Hkey. rewrite run_get_lat_lng_cases, Hkey.
  split; [| split].
  - intros ->. reflexivity.
  - intros r -> ->. reflexivity.
  - intros r -> -> ->. reflexivity.
Qed.

Lemma get_lat_lng_upstream_failure_witness :
  run offline (get_lat_lng all_credentials "Amsterdam") = Raised HTTPError.
Proof.
  apply (get_lat_lng_upstream_failure all_credentials "g-key" "Amsterdam" offline);
    reflexivity.
Defined.

(** X5: with a geocoding credential and a decoded answer, [get_lat_lng]
    asks for a retry exactly when the body is falsy: the empty list,
    but also [{}], [null], [0], [false] and the empty string; the text
    is always ["Could not find the location"]. *)
Theorem get_lat_lng_retry_iff_falsy (ctx : Deps) (key loc : string) (net : network)
    (data : json) (m : string) :
  geo_api_key ctx = Some key ->
  net (GeocodeSearch loc key) = Answered {| error_status := false; body := Some data |} ->
  run net (get_lat_lng ctx loc) = Raised (ModelRetry m) <->
  truthy data = false /\ m = "Could not find the location".
Proof.
  intros Hkey Hnet. rewrite run_get_lat_lng_cases, Hkey, Hnet. simpl.
  destruct (truthy data).
  - split; [| intros [? _]; discriminate].
    destruct data as [| | | | | [| [] ?] | |]; try discriminate.
    destruct (assoc "lat" fields); [| discriminate].
    destruct (assoc "lon" fields); discriminate.
  - split.
    + intros H. injection H as <-. auto.
    + intros [_ ->]. reflexivity.
Qed.

Lemma get_lat_lng_retry_iff_falsy_witness :
  run (answering (JObj [])) (get_lat_lng all_credentials "Nowhere")
    = Raised (ModelRetry "Could not find the location") <->
  truthy (JObj []) = false /\
  "Could not find the location" = "Could not find the location".
Proof.
  apply (get_lat_lng_retry_iff_falsy all_credentials "g-key" "Nowhere"
           (answering (JObj []))); reflexivity.
Defined.

(** X6: when the first match lacks a coordinate, [get_lat_lng] raises
    [KeyError] for it, ['lat'] before ['lon']; it does not fall back to
    another match and does not ask for a retry. *)
Theorem get_lat_lng_missing_coordinate (ctx : Deps) (key loc : string) (net : network)
    (fields : list (string * json)) (rest : list json) :
  geo_api_key ctx = Some key ->
  net (GeocodeSearch loc key)
    = Answered {| error_status := false; body := Some (JArr (JObj fields :: rest)) |} ->
  (assoc "lat" fields = None ->
   run net (get_lat_lng ctx loc) = Raised (KeyError (JStr "lat"))) /\
  (forall lat, assoc "lat" fields = Some lat -> assoc "lon" fields = None ->
   run net (get_lat_lng ctx loc) = Raised (KeyError (JStr "lon"))).
Proof.
  intros Hkey Hnet. rewrite run_get_lat_lng_cases, Hkey, Hnet. simpl.
  split.
  - intros ->. reflexivity.
  - intros lat -> ->. reflexivity.
Qed.

Lemma get_lat_lng_missing_coordinate_witness :
  run (answering (JArr [JObj [("lat", JStr "52.37")];
                        JObj [("lat", JStr "40.71"); ("lon", JStr "-74.0")]]))
      (get_lat_lng all_credentials "Amsterdam")
  = Raised (KeyError (JStr "lon")).
Proof.
  destruct (get_lat_lng_missing_coordinate all_credentials "g-key" "Amsterdam"
              (answering (JArr [JObj [("lat", JStr "52.37")];
                                JObj [("lat", JStr "40.71"); ("lon", JStr "-74.0")]]))
              [("lat", JStr "52.37")]
              [JObj [("lat", JStr "40.71"); ("lon", JStr "-74.0")]]
              eq_refl eq_refl) as [_ H].
  apply (H (JStr "52.37")); reflexivity.
Defined.

(** X7: [get_lat_lng] returns in two ways only: without credential, the
    fixed coordinates; with one, on a decoded list whose first element
    is an object holding [lat] and [lon], those two values under the
    keys [lat] and [lng].  The result always has exactly these two
    keys. *)
Theorem get_lat_lng_returns (ctx : Deps) (loc : string) (net : network) (v : json) :
  run net (get_lat_lng ctx loc) = Returned v ->
  (geo_api_key ctx = None /\
   v = JObj [("lat", JFloat (511 # 10)); ("lng", JFloat (- 1 # 10))]) \/
  (exists key fields rest a b,
     geo_api_key ctx = Some key /\
     net (GeocodeSearch loc key)
       = Answered {| error_status := false; body := Some (JArr (JObj fields :: rest)) |} /\
     assoc "lat" fields = Some a /\
     assoc "lon" fields = Some b /\
     v = JObj [("lat", a); ("lng", b)]).
Proof.
  rewrite run_get_lat_lng_cases.
  destruct (geo_api_key ctx) as [key |].
  - intros H. right.
    destruct (net (GeocodeSearch loc key)) as [| [[|] [data |]]] eqn:Hnet;
      try discriminate.
    simpl in H. destruct (truthy data); [| discriminate].
    destruct data as [| | | | | [| [] rest] | |]; try discriminate.
    destruct (assoc "lat" fields) as [a |] eqn:Hlat; [| discriminate].
    destruct (assoc "lon" fields) as [b |] eqn:Hlon; [| discriminate].
    injection H as <-. exists key, fields, rest, a, b. auto.
  - intros H. injection H as <-. left. auto.
Qed.

Lemma get_lat_lng_returns_witness :
  (geo_api_key no_credentials = None /\
   JObj [("lat", JFloat (511 # 10)); ("lng", JFloat (- 1 # 10))]
     = JObj [("lat", JFloat (511 # 10)); ("lng", JFloat (- 1 # 10))]) \/
  (exists key fields rest a b,
     geo_api_key no_credentials = Some key /\
     offline (GeocodeSearch "Amsterdam" key)
       = Answered {| error_status := false; body := Some (JArr (JObj fields :: rest)) |} /\
     assoc "lat" fields = Some a /\
     assoc "lon" fields = Some b /\
     JObj [("lat", JFloat (511 # 10)); ("lng", JFloat (- 1 # 10))]
       = JObj [("lat", a); ("lng", b)]).
Proof.
  apply (get_lat_lng_returns no_credentials "Amsterdam" offline). reflexivity.
Defined.

(** ** Outcomes of get_weather *)

Lemma run_get_weather_cases (ctx : Deps) (lat lng : Q) (net : network) :
  run net (get_weather ctx lat lng) =
  match weather_api_key ctx with
  | None => Returned sunny
  | Some key =>
      match net (TomorrowRealtime key lat lng) with
      | Unreachable => Raised HTTPError
      | Answered r =>
          if error_status r then Raised HTTPError
          else match body r with
               | None => Raised JSONDecodeError
               | Some (JObj top) =>
                   match assoc "data" top with
                   | None => Raised (KeyError (JStr "data"))
                   | Some (JObj d) =>
                       match assoc "values" d with
                       | None => Raised (KeyError (JStr "values"))
                       | Some (JObj values) =>
                           match assoc "temperatureApparent" values with
                           | None => Raised (KeyError (JStr "temperatureApparent"))
                           | Some apparent =>
                               match run net (format_value_0f apparent) with
                               | Returned t =>
                                   match assoc "weatherCode" values with
                                   | None => Raised (KeyError (JStr "weatherCode"))
                                   | Some code =>
                                       match run net (int_key code) with
                                       | Returned k =>
                                           Returned
                                             (JObj [("temperature", JStr (t ++ "°C"));
                                                    ("description",
                                                     JStr (default "Unknown"
                                                             (k ≫= (code_lookup !!.))))])
                                       | Raised e => Raised e
                                       end
                                   end
                               | Raised e => Raised e
                               end
                           end
                       | Some _ => Raised TypeError
                       end
                   | Some _ => Raised TypeError
                   end
               | Some _ => Raised TypeError
               end
      end
  end.
Proof.
  unfold get_weather. destruct (weather_api_key ctx) as [key |]; [| reflexivity].
  rewrite run_bind. simpl.
  destruct (net (TomorrowRealtime key lat lng)) as [| [[|] [data |]]]; try reflexivity.
  simpl.
  destruct data as [| | | | | | top |]; try reflexivity. simpl.
  destruct (assoc "data" top) as [[| | | | | | d |] |]; try reflexivity. simpl.
  destruct (assoc "values" d) as [[| | | | | | values |] |]; try reflexivity. simpl.
  destruct (assoc "temperatureApparent" values) as [apparent |]; [| reflexivity]. simpl.
  rewrite run_bind.
  destruct (run net (format_value_0f apparent)) as [t | e]; [| reflexivity].
  simpl.
  destruct (assoc "weatherCode" values) as [code |]; [| reflexivity]. simpl.
  unfold code_lookup_get. rewrite !run_bind.
  destruct (run net (int_key code)); reflexivity.
Qed.

(** X8: with a weather credential, a failure of the upstream call is
    raised to the caller as it is: an unreachable service or an error
    status raises the HTTP client's error, a body that is not JSON
    raises the decoding error; the fallback reading is not used. *)
Theorem get_weather_upstream_failure (ctx : Deps) (key : string) (lat lng : Q)
    (net : network) :
  weather_api_key ctx = Some key ->
  (net (TomorrowRealtime key lat lng) = Unreachable ->
   run net (get_weather ctx lat lng) = Raised HTTPError) /\
  (forall r, net (TomorrowRealtime key lat lng) = Answered r -> error_status r = true ->
   run net (get_weather ctx lat lng) = Raised HTTPError) /\
  (forall r, net (TomorrowRealtime key lat lng) = Answered r -> error_status r = false ->
   body r = None ->
   run net (get_weather ctx lat lng) = Raised JSONDecodeError).
Proof.
  intros Hkey. rewrite run_get_weather_cases, Hkey.
  split; [| split].
  - intros ->. reflexivity.
  - intros r -> ->. reflexivity.
  - intros r -> -> ->. reflexivity.
Qed.

Lemma get_weather_upstream_failure_witness :
  run offline (get_weather all_credentials (511 # 10) (- 1 # 10)) = Raised HTTPError.
Proof.
  apply (get_weather_upstream_failure all_credentials "w-key" _ _ offline); reflexivity.
Defined.

(** X9: on a decoded object that lacks one of the entries it reads,
    [get_weather] raises [KeyError] for the first one missing on the
    path [data], [values], [temperatureApparent], [weatherCode]; the
    temperature is read and formatted before the weather code is looked
    at. *)
Theorem get_weather_missing_key (ctx : Deps) (key : string) (lat lng : Q) (net : network)
    (top : list (string * json)) :
  weather_api_key ctx = Some key ->
  net (TomorrowRealtime key lat lng)
    = Answered {| error_status := false; body := Some (JObj top) |} ->
  (assoc "data" top = None ->
   run net (get_weather ctx lat lng) = Raised (KeyError (JStr "data"))) /\
  (forall d, assoc "data" top = Some (JObj d) -> assoc "values" d = None ->
   run net (get_weather ctx lat lng) = Raised (KeyError (JStr "values"))) /\
  (forall d values, assoc "data" top = Some (JObj d) ->
   assoc "values" d = Some (JObj values) ->
   assoc "temperatureApparent" values = None ->
   run net (get_weather ctx lat lng) = Raised (KeyError (JStr "temperatureApparent"))) /\
  (forall d values apparent t, assoc "data" top = Some (JObj d) ->
   assoc "values" d = Some (JObj values) ->
   assoc "temperatureApparent" values = Some apparent ->
   format_value_0f apparent = Return t ->
   assoc "weatherCode" values = None ->
   run net (get_weather ctx lat lng) = Raised (KeyError (JStr "weatherCode"))).
Proof.
  intros Hkey Hnet. rewrite run_get_weather_cases, Hkey, Hnet. simpl.
  split; [| split; [| split]].
  - intros ->. reflexivity.
  - intros d -> ->. reflexivity.
  - intros d values -> -> ->. reflexivity.
  - intros d values apparent t -> -> -> -> ->. reflexivity.
Qed.

Lemma get_weather_missing_key_witness :
  run (answering (JObj [("data", JObj [("values",
         JObj [("temperature", JFloat (18 # 1)); ("weatherCode", JInt 1001)])])]))
      (get_weather all_credentials (511 # 10) (- 1 # 10))
  = Raised (KeyError (JStr "temperatureApparent")).
Proof.
  destruct (get_weather_missing_key all_credentials "w-key" (511 # 10) (- 1 # 10)
              (answering (JObj [("data", JObj [("values",
                 JObj [("temperature", JFloat (18 # 1)); ("weatherCode", JInt 1001)])])]))
              [("data", JObj [("values",
                 JObj [("temperature", JFloat (18 # 1)); ("weatherCode", JInt 1001)])])]
              eq_refl eq_refl) as (_ & _ & H & _).
  apply (H [("values", JObj [("temperature", JFloat (18 # 1)); ("weatherCode", JInt 1001)])]
           [("temperature", JFloat (18 # 1)); ("weatherCode", JInt 1001)]);
    reflexivity.
Defined.

(** X10: a [temperatureApparent] that cannot be formatted makes
    [get_weather] fail before the weather code is looked at: a string
    raises [ValueError], [null], a list or an object raise [TypeError],
    and an integer too large for a float raises [OverflowError]. *)
Theorem get_weather_unformattable_temperature (ctx : Deps) (key : string) (lat lng : Q)
    (net : network) (values : list (string * json)) (apparent : json) :
  weather_api_key ctx = Some key ->
  realtime_values net key lat lng values ->
  assoc "temperatureApparent" values = Some apparent ->
  (forall s, apparent = JStr s ->
   run net (get_weather ctx lat lng) = Raised ValueError) /\
  (apparent = JNull \/ (exists items, apparent = JArr items) \/
   (exists fields, apparent = JObj fields) ->
   run net (get_weather ctx lat lng) = Raised TypeError) /\
  (forall z, apparent = JInt z -> float_of_int z = None ->
   run net (get_weather ctx lat lng) = Raised OverflowError).
Proof.
  intros Hkey (top & d & Hnet & Hdata & Hvalues) Happ.
  rewrite run_get_weather_cases, Hkey, Hnet.
  cbn [error_status body]. rewrite Hdata, Hvalues, Happ.
  split; [| split].
  - intros s ->. reflexivity.
  - intros [-> | [[items ->] | [fields ->]]]; reflexivity.
  - intros z -> Hz. unfold format_value_0f. rewrite Hz. reflexivity.
Qed.

Lemma get_weather_unformattable_temperature_witness :
  run (answering (JObj [("data", JObj [("values",
         JObj [("temperatureApparent", JStr "16.5"); ("weatherCode", JInt 1001)])])]))
      (get_weather all_credentials (511 # 10) (- 1 # 10))
  = Raised ValueError.
Proof.
  destruct (get_weather_unformattable_temperature all_credentials "w-key"
              (511 # 10) (- 1 # 10)
              (answering (JObj [("data", JObj [("values",
                 JObj [("temperatureApparent", JStr "16.5");
                       ("weatherCode", JInt 1001)])])]))
              [("temperatureApparent", JStr "16.5"); ("weatherCode", JInt 1001)]
              (JStr "16.5") eq_refl) as [H _].
  - eexists _, _. repeat split; reflexivity.
  - reflexivity.
  - apply (H "16.5"). reflexivity.
Defined.

Lemma format_value_0f_digits (net : network) (v : json) (t : string) :
  run net (format_value_0f v) = Returned t ->
  (exists (n : N) (sign : string), (sign = "" \/ sign = "-") /\ t = sign ++ pretty n) \/
  t = "inf" \/ t = "-inf" \/ t = "nan".
Proof.
  assert (Hf : forall q, exists (n : N) (sign : string),
             (sign = "" \/ sign = "-") /\ format_0f q = sign ++ pretty n).
  { intros q. unfold format_0f. destruct (Qle_bool 0 q); eauto. }
  destruct v as [| [|] | z | q | s | | | f]; unfold format_value_0f; try discriminate.
  - intros H. injection H as <-. left. exists 1%N, "". split; [auto | reflexivity].
  - intros H. injection H as <-. left. exists 0%N, "". split; [auto | reflexivity].
  - destruct (float_of_int z) as [q |]; [| discriminate].
    intros H. injection H as <-. left. apply Hf.
  - intros H. injection H as <-. left. apply Hf.
  - intros H. injection H as <-. destruct f; auto.
    left. exists 0%N, "-". split; [auto | reflexivity].
Qed.

Lemma format_value_0f_raises (net : network) (v : json) (e : exn) :
  run net (format_value_0f v) = Raised e ->
  e = TypeError \/ e = ValueError \/ e = OverflowError.
Proof.
  destruct v as [| [|] | z | q | s | | | f]; unfold format_value_0f; try discriminate;
    try (intros H; injection H as <-; auto).
  destruct (float_of_int z); [discriminate |].
  intros H. injection H as <-. auto.
Qed.

Lemma int_key_raises (net : network) (v : json) (e : exn) :
  run net (int_key v) = Raised e -> e = TypeError.
Proof.
  destruct v; unfold int_key; try discriminate; intros H; injection H as <-; reflexivity.
Qed.

(** X11: [get_weather] returns an object with exactly the two string
    entries [temperature] and [description].  Without credential they
    are ['21 °C'] and ['Sunny'].  With one, the temperature ends in
    ['°C'] without a space, after an optional minus sign and decimal
    digits or after one of [inf], [-inf], [nan], and the description is
    a name of the code table or ['Unknown']. *)
Theorem get_weather_returns (ctx : Deps) (lat lng : Q) (net : network) (v : json) :
  run net (get_weather ctx lat lng) = Returned v ->
  (weather_api_key ctx = None /\
   v = JObj [("temperature", JStr "21 °C"); ("description", JStr "Sunny")]) \/
  (exists (t d : string),
     weather_api_key ctx <> None /\
     v = JObj [("temperature", JStr (t ++ "°C")); ("description", JStr d)] /\
     ((exists (n : N) (sign : string), (sign = "" \/ sign = "-") /\ t = sign ++ pretty n) \/
      t = "inf" \/ t = "-inf" \/ t = "nan") /\
     (d = "Unknown" \/ exists c, code_lookup !! c = Some d)).
Proof.
  rewrite run_get_weather_cases.
  destruct (weather_api_key ctx) as [key |]; [| intros H; injection H as <-; auto].
  intros H. right.
  destruct (net (TomorrowRealtime key lat lng)) as [| r]; [discriminate |].
  destruct (error_status r); [discriminate |].
  destruct (body r) as [[| | | | | | top |] |]; try discriminate.
  destruct (assoc "data" top) as [[| | | | | | d |] |]; try discriminate.
  destruct (assoc "values" d) as [[| | | | | | values |] |]; try discriminate.
  destruct (assoc "temperatureApparent" values) as [apparent |]; [| discriminate].
  destruct (run net (format_value_0f apparent)) as [t |] eqn:Ht; [| discriminate].
  destruct (assoc "weatherCode" values) as [code |]; [| discriminate].
  destruct (run net (int_key code)) as [k |]; [| discriminate].
  injection H as <-.
  apply format_value_0f_digits in Ht.
  exists t, (default "Unknown" (k ≫= (code_lookup !!.))).
  repeat split; [discriminate | exact Ht |].
  destruct k as [c |]; [| left; reflexivity].
  change (Some c ≫= (code_lookup !!.)) with (code_lookup !! c).
  destruct (code_lookup !! c) as [name |] eqn:Hc; [right; exists c; exact Hc | left; reflexivity].
Qed.

Lemma get_weather_returns_witness :
  (weather_api_key all_credentials = None /\
   JObj [("temperature", JStr "inf°C"); ("description", JStr "Snow")]
     = JObj [("temperature", JStr "21 °C"); ("description", JStr "Sunny")]) \/
  (exists (t d : string),
     weather_api_key all_credentials <> None /\
     JObj [("temperature", JStr "inf°C"); ("description", JStr "Snow")]
       = JObj [("temperature", JStr (t ++ "°C")); ("description", JStr d)] /\
     ((exists (n : N) (sign : string), (sign = "" \/ sign = "-") /\ t = sign ++ pretty n) \/
      t = "inf" \/ t = "-inf" \/ t = "nan") /\
     (d = "Unknown" \/ exists c, code_lookup !! c = Some d)).
Proof.
  apply (get_weather_returns all_credentials (511 # 10) (- 1 # 10)
           (answering (JObj [("data", JObj [("values",
              JObj [("temperatureApparent", JSpecial pos_inf);
                    ("weatherCode", JInt 5000)])])]))).
  reflexivity.
Defined.

(** X12: [get_weather] never raises [ModelRetry], so none of its
    failures asks the planner for another attempt; and once the answer
    has no error status and its body is decoded, it fails only with a
    [KeyError] on a string key, [TypeError], [ValueError] or
    [OverflowError]. *)
Theorem get_weather_raises_only (ctx : Deps) (lat lng : Q) (net : network) (e : exn) :
  run net (get_weather ctx lat lng) = Raised e ->
  (forall m, e <> ModelRetry m) /\
  (forall key r data,
     weather_api_key ctx = Some key ->
     net (TomorrowRealtime key lat lng) = Answered r ->
     error_status r = false ->
     body r = Some data ->
     (exists k, e = KeyError (JStr k)) \/
     e = TypeError \/ e = ValueError \/ e = OverflowError).
Proof.
  intros H.
  assert (Hdecoded : forall key r data,
             weather_api_key ctx = Some key ->
             net (TomorrowRealtime key lat lng) = Answered r ->
             error_status r = false ->
             body r = Some data ->
             (exists k, e = KeyError (JStr k)) \/
             e = TypeError \/ e = ValueError \/ e = OverflowError).
  { intros key r data Hkey Hnet Herr Hbody.
    rewrite run_get_weather_cases, Hkey, Hnet, Herr, Hbody in H.
    destruct data as [| | | | | | top |]; try (injection H as <-; auto).
    destruct (assoc "data" top) as [[| | | | | | d |] |]; try (injection H as <-; eauto).
    destruct (assoc "values" d) as [[| | | | | | values |] |];
      try (injection H as <-; eauto).
    destruct (assoc "temperatureApparent" values) as [apparent |];
      [| injection H as <-; eauto].
    destruct (run net (format_value_0f apparent)) as [t | e'] eqn:Ht.
    - destruct (assoc "weatherCode" values) as [code |]; [| injection H as <-; eauto].
      destruct (run net (int_key code)) as [k | e''] eqn:Hk; [discriminate |].
      injection H as <-. apply int_key_raises in Hk as ->. auto.
    - injection H as <-. apply format_value_0f_raises in Ht. tauto. }
  split; [| exact Hdecoded].
  intros m ->.
  rewrite run_get_weather_cases in H.
  destruct (weather_api_key ctx) as [key |] eqn:Hkey; [| discriminate].
  destruct (net (TomorrowRealtime key lat lng)) as [| r] eqn:Hnet; [discriminate |].
  destruct (error_status r) eqn:Herr; [discriminate |].
  destruct (body r) as [data |] eqn:Hbody; [| discriminate].
  destruct (Hdecoded key r data eq_refl Hnet Herr Hbody)
    as [[k ?] | [? | [? | ?]]]; discriminate.
Qed.

Lemma get_weather_raises_only_witness :
  (forall m, KeyError (JStr "data") <> ModelRetry m) /\
  (forall key r data,
     weather_api_key all_credentials = Some key ->
     answering (JObj []) (TomorrowRealtime key (511 # 10) (- 1 # 10)) = Answered r ->
     error_status r = false ->
     body r = Some data ->
     (exists k, KeyError (JStr "data") = KeyError (JStr k)) \/
     KeyError (JStr "data") = TypeError \/ KeyError (JStr "data") = ValueError \/
     KeyError (JStr "data") = OverflowError).
Proof.
  apply (get_weather_raises_only all_credentials (511 # 10) (- 1 # 10)
           (answering (JObj []))).
  reflexivity.
Defined.

(** ** Outcomes of get_aqi *)

(** X13: [get_aqi] answers [None] instead of failing when the service is
    unreachable, when the answer has an error status or a body that is
    not JSON, and when the decoded object has a [status] other than
    ["ok"], no [data] entry, or an object [data] without [aqi]. *)
Theorem get_aqi_none_on_failure (ctx : Deps) (lat lon : Q) (net : network) :
  (net (WaqiFeed lat lon (aqi_api_key ctx)) = Unreachable ->
   run net (get_aqi ctx lat lon) = Returned JNull) /\
  (forall r, net (WaqiFeed lat lon (aqi_api_key ctx)) = Answered r ->
   error_status r = true \/ body r = None ->
   run net (get_aqi ctx lat lon) = Returned JNull) /\
  (forall fields,
   net (WaqiFeed lat lon (aqi_api_key ctx))
     = Answered {| error_status := false; body := Some (JObj fields) |} ->
   assoc "status" fields <> Some (JStr "ok") \/
   assoc "data" fields = None \/
   (exists d, assoc "data" fields = Some (JObj d) /\ assoc "aqi" d = None) ->
   run net (get_aqi ctx lat lon) = Returned JNull).
Proof.
  rewrite run_get_aqi. split; [| split].
  - intros ->. reflexivity.
  - intros r -> [-> | Hbody]; [reflexivity |].
    destruct (error_status r); [reflexivity |]. rewrite Hbody. reflexivity.
  - intros fields -> H. cbn [error_status body].
    destruct (is_str "ok" (default JNull (assoc "status" fields))) eqn:Hok;
      [| reflexivity].
    destruct H as [Hstatus | [-> | (d & -> & ->)]]; [| reflexivity | reflexivity].
    exfalso. apply Hstatus.
    destruct (assoc "status" fields) as [[| | | | s | | |] |]; try discriminate.
    apply String.eqb_eq in Hok as <-. reflexivity.
Qed.

Lemma get_aqi_none_on_failure_witness :
  run (answering (JObj [("status", JStr "error"); ("data", JStr "Invalid key")]))
      (get_aqi no_credentials (511 # 10) (- 1 # 10))
  = Returned JNull.
Proof.
  destruct (get_aqi_none_on_failure no_credentials (511 # 10) (- 1 # 10)
              (answering (JObj [("status", JStr "error"); ("data", JStr "Invalid key")])))
    as (_ & _ & H).
  apply (H [("status", JStr "error"); ("data", JStr "Invalid key")]);
    [reflexivity | left; discriminate].
Defined.

(** X14: on an answer without error status whose body has
    [status == "ok"] and an object [data] holding [aqi], [get_aqi]
    returns that entry as it is, whatever its type: the reading is not
    checked to be an integer. *)
Theorem get_aqi_returns_reading (ctx : Deps) (lat lon : Q) (net : network)
    (fields d : list (string * json)) (v : json) :
  net (WaqiFeed lat lon (aqi_api_key ctx))
    = Answered {| error_status := false; body := Some (JObj fields) |} ->
  assoc "status" fields = Some (JStr "ok") ->
  assoc "data" fields = Some (JObj d) ->
  assoc "aqi" d = Some v ->
  run net (get_aqi ctx lat lon) = Returned v.
Proof.
  intros Hnet Hstatus Hdata Haqi.
  rewrite run_get_aqi, Hnet. cbn [error_status body].
  rewrite Hstatus, Hdata, Haqi. reflexivity.
Qed.

Lemma get_aqi_returns_reading_witness :
  run (answering (JObj [("status", JStr "ok"); ("data", JObj [("aqi", JStr "-")])]))
      (get_aqi all_credentials (511 # 10) (- 1 # 10))
  = Returned (JStr "-").
Proof.
  apply (get_aqi_returns_reading all_credentials _ _ _
           [("status", JStr "ok"); ("data", JObj [("aqi", JStr "-")])]
           [("aqi", JStr "-")]); reflexivity.
Defined.

(** X15: [get_aqi] never lets a request error out and never raises
    [ModelRetry]: when it raises, the answer had no error status, and
    on a decoded body the exception is [AttributeError] for a body that
    is not an object, [TypeError] for an object with [status == "ok"]
    whose [data] entry is present and not an object. *)
Theorem get_aqi_raises_only (ctx : Deps) (lat lon : Q) (net : network) (e : exn) :
  run net (get_aqi ctx lat lon) = Raised e ->
  e <> RequestException /\
  (forall m, e <> ModelRetry m) /\
  exists r,
    net (WaqiFeed lat lon (aqi_api_key ctx)) = Answered r /\
    error_status r = false /\
    forall data, body r = Some data ->
      match data with
      | JObj fields =>
          e = TypeError /\
          assoc "status" fields = Some (JStr "ok") /\
          exists x, assoc "data" fields = Some x /\
                    match x with JObj _ => False | _ => True end
      | _ => e = AttributeError
      end.
Proof.
  rewrite run_get_aqi.
  destruct (net (WaqiFeed lat lon (aqi_api_key ctx))) as [| r]; [discriminate |].
  destruct (error_status r) eqn:Herr; [discriminate |].
  destruct (body r) as [data |] eqn:Hbody; [| discriminate].
  intros H.
  assert (Hcase : match data with
                  | JObj fields =>
                      e = TypeError /\
                      assoc "status" fields = Some (JStr "ok") /\
                      exists x, assoc "data" fields = Some x /\
                                match x with JObj _ => False | _ => True end
                  | _ => e = AttributeError
                  end).
  { destruct data as [| | | | | | fields |]; try (injection H as <-; reflexivity).
    destruct (assoc "status" fields) as [[| | | | s | | |] |] eqn:Hstatus;
      try discriminate.
    change (is_str "ok" (default JNull (Some (JStr s)))) with (String.eqb "ok" s) in H.
    destruct (String.eqb "ok" s) eqn:Hok; [| discriminate H].
    apply String.eqb_eq in Hok as <-.
    destruct (assoc "data" fields) as [x |] eqn:Hdata; [| discriminate H].
    assert (He : e = TypeError).
    { destruct x as [| | | | s | items | |]; try (injection H as <-; reflexivity).
      - destruct (is_substring "aqi" s); [injection H as <-; reflexivity | discriminate].
      - destruct (existsb (is_str "aqi") items);
          [injection H as <-; reflexivity | discriminate].
      - discriminate. }
    repeat split; auto. exists x. split; [reflexivity |].
    destruct x; try exact I. discriminate. }
  assert (He : e = TypeError \/ e = AttributeError).
  { destruct data; tauto. }
  split; [destruct He as [-> | ->]; discriminate |].
  split; [intros m; destruct He as [-> | ->]; discriminate |].
  exists r. repeat split; auto.
  intros data' Hdata'. rewrite Hbody in Hdata'. injection Hdata' as <-. exact Hcase.
Qed.

Lemma get_aqi_raises_only_witness :
  AttributeError <> RequestException /\
  (forall m, AttributeError <> ModelRetry m) /\
  exists r,
    answering (JArr []) (WaqiFeed (511 # 10) (- 1 # 10) (aqi_api_key all_credentials))
      = Answered r /\
    error_status r = false /\
    forall data, body r = Some data ->
      match data with
      | JObj fields =>
          AttributeError = TypeError /\
          assoc "status" fields = Some (JStr "ok") /\
          exists x, assoc "data" fields = Some x /\
                    match x with JObj _ => False | _ => True end
      | _ => AttributeError = AttributeError
      end.
Proof.
  apply (get_aqi_raises_only all_credentials (511 # 10) (- 1 # 10) (answering (JArr []))).
  rewrite run_get_aqi. reflexivity.
Defined.

(** ** Whole temperatures *)

(** X16: a whole [temperatureApparent], given as an integer of
    magnitude below 2^53 or as a float without fractional part other
    than negative zero, is rendered as exactly that integer: its sign,
    its decimal digits and ['°C']; negative zero is rendered
    ['-0°C']. *)
Theorem get_weather_whole_temperature (ctx : Deps) (key : string) (lat lng : Q)
    (net : network) (values : list (string * json)) (apparent code : json)
    (z : Z) (k : option Z) :
  weather_api_key ctx = Some key ->
  realtime_values net key lat lng values ->
  assoc "temperatureApparent" values = Some apparent ->
  assoc "weatherCode" values = Some code ->
  int_key code = Return k ->
  ((apparent = JInt z /\ Z.abs z < 2 ^ 53) \/ apparent = JFloat (inject_Z z) ->
   exists d,
     run net (get_weather ctx lat lng)
       = Returned (JObj [("temperature",
                          JStr ((if Z.leb 0 z then "" else "-")
                                ++ pretty (Z.to_N (Z.abs z)) ++ "°C"));
                         ("description", JStr d)])) /\
  (apparent = JSpecial neg_zero ->
   exists d,
     run net (get_weather ctx lat lng)
       = Returned (JObj [("temperature", JStr "-0°C"); ("description", JStr d)])).
Proof.
  intros Hkey Hvals Happ Hcode Hk. split.
  - intros Hwhole.
    exists (default "Unknown" (k ≫= (code_lookup !!.))).
    rewrite (get_weather_reading ctx key lat lng net values apparent code
               (format_0f (inject_Z z)) k); auto.
    + rewrite format_0f_inject, append_assoc. reflexivity.
    + destruct Hwhole as [[-> Hz] | ->]; unfold format_value_0f;
        [rewrite (float_of_int_exact z Hz) |]; reflexivity.
  - intros ->.
    exists (default "Unknown" (k ≫= (code_lookup !!.))).
    apply (get_weather_reading ctx key lat lng net values (JSpecial neg_zero) code
             "-0" k); auto.
Qed.

Lemma get_weather_whole_temperature_witness :
  exists d,
    run (answering (JObj [("data", JObj [("values",
           JObj [("temperatureApparent", JInt (-7)); ("weatherCode", JInt 5001)])])]))
        (get_weather all_credentials (511 # 10) (- 1 # 10))
      = Returned (JObj [("temperature",
                         JStr ((if Z.leb 0 (-7) then "" else "-")
                               ++ pretty (Z.to_N (Z.abs (-7))) ++ "°C"));
                        ("description", JStr d)]).
Proof.
  destruct (get_weather_whole_temperature all_credentials "w-key"
              (511 # 10) (- 1 # 10)
              (answering (JObj [("data", JObj [("values",
                 JObj [("temperatureApparent", JInt (-7));
                       ("weatherCode", JInt 5001)])])]))
              [("temperatureApparent", JInt (-7)); ("weatherCode", JInt 5001)]
              (JInt (-7)) (JInt 5001) (-7) (Some 5001)) as [H _]; try reflexivity.
  - eexists _, _. repeat split; reflexivity.
  - apply H. left. split; [reflexivity | lia].
Defined.

(** ** The tools under the dependencies of main *)

(** X17: with the dependencies [main] reads from the environment, the
    requests of the tools are decided by three variables.  An unset
    [GEO_API_KEY] or [WEATHER_API_KEY] means no request at all; a set
    one, the empty string included, is sent as the credential of
    exactly one request; [get_aqi] sends its one request either way,
    with the token [None] when [AQI_API_KEY] is unset. *)
Theorem main_deps_requests (env : gmap string string) (loc : string) (lat lng : Q)
    (net : network) :
  requests_of net (get_lat_lng (main_deps env) loc)
    = match env !! "GEO_API_KEY" with
      | None => []
      | Some key => [GeocodeSearch loc key]
      end /\
  requests_of net (get_weather (main_deps env) lat lng)
    = match env !! "WEATHER_API_KEY" with
      | None => []
      | Some key => [TomorrowRealtime key lat lng]
      end /\
  requests_of net (get_aqi (main_deps env) lat lng)
    = [WaqiFeed lat lng (env !! "AQI_API_KEY")].
Proof.
  split; [| split].
  - unfold get_lat_lng, main_deps, getenv. cbn [geo_api_key].
    destruct (env !! "GEO_API_KEY") as [key |]; [| reflexivity].
    apply (requests_of_get net _ client_get); [auto |].
    intros r. auto 20 with request_free.
  - unfold get_weather, main_deps, getenv. cbn [weather_api_key].
    destruct (env !! "WEATHER_API_KEY") as [key |]; [| reflexivity].
    apply (requests_of_get net _ client_get); [auto |].
    intros r. auto 20 with request_free.
  - unfold get_aqi, main_deps, getenv. cbn [aqi_api_key].
    rewrite requests_of_try_except.
    rewrite (requests_of_get net _ requests_get).
    + destruct (run net _) as [v | []]; reflexivity.
    + auto.
    + intros r. auto 20 with request_free.
Qed.
